(** * k8seventsreceiver: the Kubernetes events receiver

    A shallow embedding of [receiver/k8seventsreceiver/receiver.go] and the
    properties of its timestamp resolver, startup flood filter, watch
    management and lifecycle.

    Layout: the part of Go's [time.Time] that the receiver relies on, the
    event and receiver data, the receiver's functions in a small state and
    panic monad, then the theorems. *)

From Stdlib Require Import ZArith Bool String Lia.
From stdpp Require Import base list.

Local Open Scope Z_scope.

(* ===================================================================== *)
(** ** Go's [time.Time], as far as the receiver uses it                   *)
(* ===================================================================== *)

Module time.

(** A [*time.Location]; only its identity matters to struct comparison. *)
Inductive Location : Type :=
| Local
| Zone (id : nat).

(** [time.Time]: [wall] is a uint64, [ext] an int64, [loc] a pointer
    that may be nil. *)
Record Time : Type := mkTime {
  wall : Z;
  ext  : Z;
  loc  : option Location
}.

(** [time.Time{}], the zero value of the struct. *)
Definition zero : Time := mkTime 0 0 None.

Definition hasMonotonic : Z := Z.shiftl 1 63.
Definition nsecMask : Z := Z.shiftl 1 30 - 1.
Definition nsecShift : Z := 30.
Definition secondsPerDay : Z := 86400.
Definition wallToInternal : Z :=
  (1884 * 365 + 1884 / 4 - 1884 / 100 + 1884 / 400) * secondsPerDay.

Definition Location_eqb (a b : Location) : bool :=
  match a, b with
  | Local, Local => true
  | Zone i, Zone j => Nat.eqb i j
  | _, _ => false
  end.

Definition loc_eqb (a b : option Location) : bool :=
  match a, b with
  | None, None => true
  | Some x, Some y => Location_eqb x y
  | _, _ => false
  end.

(** Go's [==] on two [Time] structs: field by field. *)
Definition eqb (t u : Time) : bool :=
  (wall t =? wall u) && (ext t =? ext u) && loc_eqb (loc t) (loc u).

(** [t.wall & hasMonotonic != 0] *)
Definition monotonic (t : Time) : bool :=
  negb (Z.land (wall t) hasMonotonic =? 0).

(** [func (t *Time) nsec() int32] *)
Definition nsec (t : Time) : Z := Z.land (wall t) nsecMask.

(** [func (t *Time) sec() int64]: seconds since Jan 1 year 1.  The shift
    left by one is taken in 64 bits. *)
Definition sec (t : Time) : Z :=
  if monotonic t
  then wallToInternal
       + Z.shiftr (Z.shiftl (wall t) 1 mod 2 ^ 64) (nsecShift + 1)
  else ext t.

(** [func (t Time) Before(u Time) bool] *)
Definition Before (t u : Time) : bool :=
  if negb (Z.land (Z.land (wall t) (wall u)) hasMonotonic =? 0)
  then ext t <? ext u
  else
    let ts := sec t in
    let us := sec u in
    (ts <? us) || ((ts =? us) && (nsec t <? nsec u)).

(** The instant a [Time] denotes on the wall clock, in nanoseconds since
    Jan 1 year 1. *)
Definition wallNanos (t : Time) : Z := sec t * 1000000000 + nsec t.

(** Every [Time] that the [time] package builds keeps its nanoseconds
    field below one second. *)
Definition valid (t : Time) : Prop := nsec t < 1000000000.

(** Both operands carry a monotonic clock reading: [Before] then orders
    them by that reading, otherwise by the wall clock. *)
Definition bothMonotonic (t u : Time) : bool := monotonic t && monotonic u.

End time.

(* ===================================================================== *)
(** ** Events                                                             *)
(* ===================================================================== *)

(** [corev1.ObjectReference], the involved object of an event. *)
Record ObjectReference : Type := mkObjectReference {
  refKind      : string;
  refNamespace : string;
  refName      : string
}.

(** [corev1.Event].  [metav1.Time] and [metav1.MicroTime] both wrap a
    [time.Time], which is what the receiver reads. *)
Record Event : Type := mkEvent {
  Name            : string;
  Namespace       : string;
  InvolvedObject  : ObjectReference;
  Reason          : string;
  Message         : string;
  SourceComponent : string;
  Count           : Z;
  EventType       : string;
  EventTime       : time.Time;
  LastTimestamp   : time.Time;
  FirstTimestamp  : time.Time
}.

(** Return the EventTimestamp based on the populated k8s event timestamps.
    Priority: EventTime > LastTimestamp > FirstTimestamp. *)
Definition getEventTimestamp (ev : Event) : time.Time :=
  let eventTimestamp := time.zero in
  if negb (time.eqb (EventTime ev) time.zero) then EventTime ev
  else if negb (time.eqb (LastTimestamp ev) time.zero) then LastTimestamp ev
  else if negb (time.eqb (FirstTimestamp ev) time.zero) then FirstTimestamp ev
  else eventTimestamp.


(* ===================================================================== *)
(** ** The receiver and the world it acts on                              *)
(* ===================================================================== *)

(** A Go [error] value, by its message; [None] is the nil error. *)
Definition error : Type := string.

(** [corev1.NamespaceAll] *)
Definition NamespaceAll : string := EmptyString.

(** The part of [Config] that the receiver reads. *)
Record Config : Type := mkConfig {
  Namespaces : list string;
  AuthType   : string
}.

(** Modelled from the spec: [kube.ExtractionRules] is declared in the
    [internal/kube] package; an ordered set of field mappings, each with a
    source field path on the event and a destination attribute name. *)
Record FieldExtractionRule : Type := mkRule {
  ruleSource : string;
  ruleDest   : string
}.

Definition ExtractionRules : Type := list FieldExtractionRule.

(** Modelled from the spec: the log record that [k8sEventToLogData]
    produces, a timestamp, a body and a mapping of attribute names to
    values. *)
Record LogRecord : Type := mkLogRecord {
  recTimestamp  : time.Time;
  recBody       : string;
  recAttributes : list (string * string)
}.

(** [plog.Logs] *)
Definition Logs : Type := list LogRecord.

(** A channel of type [chan struct{}], by its address in the store of
    channels. *)
Definition chan : Type := nat.

(** [context.Context] values as the receiver builds them; [nilCtx] is the
    nil interface value. *)
Inductive Context : Type :=
| nilCtx
| Background
| cancelCtx (id : nat) (parent : Context)
| logsOpCtx (receiverCtx : Context).

(** A [context.CancelFunc]: the cancel context it was returned with. *)
Definition CancelFunc : Type := nat.

(** [receiver.Settings], [receiverhelper.ObsReport], [consumer.Logs],
    [component.Host], [k8s.Interface]: capabilities, kept by identity. *)
Record Settings : Type := mkSettings { ID : string }.

Record ObsReportSettings : Type := mkObsReportSettings {
  ReceiverID             : string;
  Transport              : string;
  ReceiverCreateSettings : Settings
}.

Inductive ObsReport : Type := mkObsReport (s : ObsReportSettings).
Inductive Consumer : Type := mkConsumer (id : nat).
Inductive Host : Type := mkHost (id : nat).
Inductive Client : Type := mkClient (id : nat).

(** A value of the receiver's [option] type, [func(kr *k8seventsReceiver)
    error], by name: the options are built outside this file and enter the
    model through [runOption] below. *)
Inductive rcvOption : Type := mkOption (id : nat).

(** [type k8seventsReceiver struct]; a nil [cancel] or [obsrecv] is
    [None]. *)
Record k8seventsReceiver : Type := mkReceiver {
  config          : Config;
  options         : list rcvOption;
  rules           : ExtractionRules;
  settings        : Settings;
  logsConsumer    : Consumer;
  stopperChanList : list chan;
  startTime       : time.Time;
  ctx             : Context;
  cancel          : option CancelFunc;
  obsrecv         : option ObsReport
}.

Definition set_rules (kr : k8seventsReceiver) (r : ExtractionRules) :=
  mkReceiver (config kr) (options kr) r (settings kr) (logsConsumer kr)
    (stopperChanList kr) (startTime kr) (ctx kr) (cancel kr) (obsrecv kr).

Definition set_stopperChanList (kr : k8seventsReceiver) (l : list chan) :=
  mkReceiver (config kr) (options kr) (rules kr) (settings kr)
    (logsConsumer kr) l (startTime kr) (ctx kr) (cancel kr) (obsrecv kr).

Definition set_ctx_cancel (kr : k8seventsReceiver) (c : Context)
    (f : CancelFunc) :=
  mkReceiver (config kr) (options kr) (rules kr) (settings kr)
    (logsConsumer kr) (stopperChanList kr) (startTime kr) c (Some f)
    (obsrecv kr).

(** The closures that [startWatch] installs as [AddFunc] and [UpdateFunc];
    both capture only the receiver.  No [DeleteFunc] is ever built. *)
Inductive AddClosure : Type := startWatch_func1.
Inductive UpdateClosure : Type := startWatch_func2.
Inductive DeleteClosure : Type := .

(** [cache.ResourceEventHandlerFuncs]; an unset function is nil. *)
Record ResourceEventHandlerFuncs : Type := mkHandlers {
  AddFunc    : option AddClosure;
  UpdateFunc : option UpdateClosure;
  DeleteFunc : option DeleteClosure
}.

(** An informer running in its goroutine: what [cache.InformerOptions]
    and [controller.Run] were given. *)
Record Informer : Type := mkInformer {
  infClient    : Client;
  infResource  : string;
  infNamespace : string;
  ResyncPeriod : Z;
  Handler      : ResourceEventHandlerFuncs;
  infStopper   : chan
}.

(** What the receiver does to its collaborators, in order. *)
Inductive Effect : Type :=
| LoggerError (msg : string) (err : error)
| LoggerInfo (msg : string)
| ReportFatalError (host : Host) (err : error)
| StartLogsOp (obs : option ObsReport) (c : Context)
| ConsumeLogsCall (cons : Consumer) (c : Context) (ld : Logs)
| EndLogsOp (obs : option ObsReport) (c : Context) (format : string)
    (numReceivedLogRecords : Z) (err : option error).

(** Everything outside the receiver struct: the channels ([true] once
    closed), the cancel contexts ([true] once cancelled), the informers
    started so far, and the trace of effects, oldest first. *)
Record World : Type := mkWorld {
  chans     : list bool;
  cancelled : list bool;
  informers : list Informer;
  effects   : list Effect
}.

Definition State : Type := (k8seventsReceiver * World)%type.

(** The result of running Go code: it returns, or it panics. *)
Inductive result (A : Type) : Type :=
| Ok (a : A) (s : State)
| Panic (msg : string).

Arguments Ok {A} a s.
Arguments Panic {A} msg.

Definition M (A : Type) : Type := State -> result A.

Definition ret {A} (a : A) : M A := fun s => Ok a s.

Definition bind {A B} (m : M A) (k : A -> M B) : M B :=
  fun s => match m s with
           | Ok a s' => k a s'
           | Panic msg => Panic msg
           end.

Declare Scope go_scope.
Delimit Scope go_scope with go.
Notation "x <- m ;; k" := (bind m (fun x => k))
  (at level 62, m at next level, right associativity) : go_scope.
Notation "m ;;; k" := (bind m (fun _ => k))
  (at level 62, right associativity) : go_scope.
Local Open Scope go_scope.

Definition panic {A} (msg : string) : M A := fun _ => Panic msg.
Definition getKr : M k8seventsReceiver := fun s => Ok (fst s) s.
Definition putKr (kr : k8seventsReceiver) : M unit :=
  fun s => Ok tt (kr, snd s).
Definition getWorld : M World := fun s => Ok (snd s) s.
Definition putWorld (w : World) : M unit := fun s => Ok tt (fst s, w).

Definition emit (e : Effect) : M unit :=
  w <- getWorld ;;
  putWorld (mkWorld (chans w) (cancelled w) (informers w)
              (effects w ++ [e])).

(** [make(chan struct{})] *)
Definition makeChan : M chan :=
  w <- getWorld ;;
  putWorld (mkWorld (chans w ++ [false]) (cancelled w) (informers w)
              (effects w)) ;;;
  ret (length (chans w)).

(** [close(c)]: closing a closed channel panics. *)
Definition closeChan (c : chan) : M unit :=
  w <- getWorld ;;
  match chans w !! c with
  | Some false =>
      putWorld (mkWorld (<[c := true]> (chans w)) (cancelled w)
                  (informers w) (effects w))
  | Some true => panic "close of closed channel"
  | None => panic "close of nil channel"
  end.

(** [context.WithCancel(parent)] *)
Definition WithCancel (parent : Context) : M (Context * CancelFunc) :=
  w <- getWorld ;;
  putWorld (mkWorld (chans w) (cancelled w ++ [false]) (informers w)
              (effects w)) ;;;
  let id := length (cancelled w) in
  ret (cancelCtx id parent, id).

(** Calling a [CancelFunc]; calls after the first do nothing. *)
Definition callCancel (f : CancelFunc) : M unit :=
  w <- getWorld ;;
  putWorld (mkWorld (chans w) (<[f := true]> (cancelled w)) (informers w)
              (effects w)).

(** [go controller.Run(stopper)] *)
Definition goRun (i : Informer) : M unit :=
  w <- getWorld ;;
  putWorld (mkWorld (chans w) (cancelled w) (informers w ++ [i])
              (effects w)).

(** A [for _, x := range l] loop whose body is [body]. *)
Fixpoint forRange {A} (l : list A) (body : A -> M unit) : M unit :=
  match l with
  | [] => ret tt
  | x :: rest => body x ;;; forRange rest body
  end.

(** Allow events with eventTimestamp(EventTime/LastTimestamp/FirstTimestamp)
    not older than the receiver start time so that
    event flood can be avoided upon startup. *)
Definition allowEvent (kr : k8seventsReceiver) (ev : Event) : bool :=
  let eventTimestamp := getEventTimestamp ev in
  negb (time.Before eventTimestamp (startTime kr)).

(** A Go value of type [any] handed to an informer callback: a non-nil
    [*corev1.Event], a nil [*corev1.Event], or a value of another type. *)
Inductive any : Type :=
| AnyEvent (ev : Event)
| AnyNilEvent
| AnyOther (typeName : string).

(** What an informer tells its handler. *)
Inductive Notification : Type :=
| Added (obj : any)
| Updated (oldObj newObj : any)
| Deleted (obj : any).

(** A call into the running system: the host calls [Start] or [Shutdown],
    or the informer at position [idx] fires a notification. *)
Inductive Call : Type :=
| CallStart (c : Context) (host : Host)
| CallShutdown
| CallNotify (idx : nat) (n : Notification).

(** The handlers that [startWatch] registers. *)
Definition watchHandlers : ResourceEventHandlerFuncs :=
  mkHandlers (Some startWatch_func1) (Some startWatch_func2) None.

(** The informer that [startWatch] starts for [ns] with stopper [ch]. *)
Definition watchOf (client : Client) (ns : string) (ch : chan) : Informer :=
  mkInformer client "events" ns 0 watchHandlers ch.

(** The namespaces that [Start] watches for a configuration. *)
Definition watchTargets (cfg : Config) : list string :=
  match Namespaces cfg with
  | [] => [NamespaceAll]
  | nss => nss
  end.

(** The state after [Start] has started the watches of [nss], one after
    the other, from receiver [kr] and world [w]: the stoppers are the next
    free channels, in order. *)
Definition afterWatches (client : Client) (nss : list string)
    (kr : k8seventsReceiver) (w : World) : State :=
  let stoppers := seq (length (chans w)) (length nss) in
  (set_stopperChanList kr (stopperChanList kr ++ stoppers),
   mkWorld (chans w ++ replicate (length nss) false) (cancelled w)
     (informers w ++ zip_with (watchOf client) nss stoppers) (effects w)).

(** The receiver and the world once [Start] has derived its context. *)
Definition withContext (c : Context) (kr : k8seventsReceiver) (w : World)
    : State :=
  (set_ctx_cancel kr (cancelCtx (length (cancelled w)) c)
     (length (cancelled w)),
   mkWorld (chans w) (cancelled w ++ [false]) (informers w) (effects w)).

(** What holds of the running system throughout: the start time is the
    one read at construction, and every informer carries the handlers of
    [startWatch]. *)
Definition watchInvariant (now : time.Time) (s : State) : Prop :=
  startTime (fst s) = now /\
  Forall (fun i => Handler i = watchHandlers) (informers (snd s)).

(** The batches handed to the consumer in a trace, oldest first. *)
Definition consumedLogs (es : list Effect) : list Logs :=
  flat_map (fun e => match e with
                     | ConsumeLogsCall _ _ ld => [ld]
                     | _ => []
                     end) es.

(** The world with a list of effects added at the end of its trace. *)
Definition withEffects (w : World) (es : list Effect) : World :=
  mkWorld (chans w) (cancelled w) (informers w) (effects w ++ es).


(* ===================================================================== *)
(** ** Concrete collaborators and inputs, used to run the definitions     *)
(* ===================================================================== *)

Module Sample.

Definition NewObsReport (s : ObsReportSettings) : ObsReport + error :=
  inl (mkObsReport s).

Definition createReceiverOpts (_ : Config) : list rcvOption := [mkOption 0].

(** Option 0 installs one extraction rule; any other option fails. *)
Definition runOption (o : rcvOption) (kr : k8seventsReceiver)
    : k8seventsReceiver * option error :=
  match o with
  | mkOption 0%nat =>
      (set_rules kr [mkRule "involvedObject.kind" "k8s.object.kind"], None)
  | mkOption _ => (set_rules kr (rules kr), Some "unknown option"%string)
  end.

Definition getK8sClient (cfg : Config) : Client + error :=
  if String.eqb (AuthType cfg) "none" then inr "invalid authType"%string
  else inl (mkClient 0).

Definition k8sEventToLogData (ev : Event) (_ : ExtractionRules) : Logs :=
  [mkLogRecord (getEventTimestamp ev) (Message ev) []].

(** A consumer that takes every batch, and one that refuses every batch. *)
Definition ConsumeLogs (_ : Consumer) (_ : list Effect) (_ : Context)
    (_ : Logs) : option error := None.

Definition ConsumeLogs_failing (_ : Consumer) (_ : list Effect)
    (_ : Context) (_ : Logs) : option error := Some "backend down"%string.

Definition metadataType : string := "k8s_events".

Definition cfgAll : Config := mkConfig [] "serviceAccount".
Definition cfgTwo : Config :=
  mkConfig ["a"%string; "b"%string] "serviceAccount".
Definition cfgNoClient : Config := mkConfig ["a"%string] "none".

(** A wall-clock reading without monotonic part: [s] seconds since year 1
    and [ns] nanoseconds, in the local zone. *)
Definition at_ (s ns : Z) : time.Time := time.mkTime ns s (Some time.Local).

(** A reading with a monotonic part, as [time.Now()] returns it: [s]
    seconds since 1885 and [ns] nanoseconds packed into [wall], [mono] the
    monotonic clock. *)
Definition now_ (s ns mono : Z) : time.Time :=
  time.mkTime (Z.lor time.hasMonotonic (Z.lor (Z.shiftl s 30) ns)) mono
    (Some time.Local).

Definition T0 : time.Time := at_ 63800000000 500.

Definition event (et lt ft : time.Time) : Event :=
  mkEvent "pod.17" "a" (mkObjectReference "Pod" "a" "pod") "Scheduled"
    "Successfully assigned" "default-scheduler" 1 "Normal" et lt ft.

Definition receiverAt (cfg : Config) (opts : list rcvOption)
    (now : time.Time) : k8seventsReceiver :=
  mkReceiver cfg opts [] (mkSettings "k8s_events") (mkConsumer 0) [] now
    nilCtx None
    (Some (mkObsReport
             (mkObsReportSettings "k8s_events" "http"
                (mkSettings "k8s_events")))).

Definition emptyWorld : World := mkWorld [] [] [] [].

End Sample.

(* ===================================================================== *)
(** ** The receiver's functions                                           *)
(* ===================================================================== *)

Section Receiver.

(** Code of the repository and of its libraries that lies outside
    [receiver.go] enters as parameters. *)
Variable NewObsReport : ObsReportSettings -> ObsReport + error.
Variable createReceiverOpts : Config -> list rcvOption.
Variable runOption :
  rcvOption -> k8seventsReceiver -> k8seventsReceiver * option error.
Variable getK8sClient : Config -> Client + error.
Variable k8sEventToLogData : Event -> ExtractionRules -> Logs.
(** The consumer's answer may depend on everything that happened before. *)
Variable ConsumeLogs :
  Consumer -> list Effect -> Context -> Logs -> option error.
(** [metadata.Type.String()] *)
Variable metadataType : string.

(** newReceiver creates the Kubernetes events receiver with the given
    configuration; [now] is what [time.Now()] reads. *)
Definition newReceiver (set : Settings) (config : Config)
    (consumer : Consumer) (options : list rcvOption) (now : time.Time)
    : k8seventsReceiver + error :=
  let transport := "http"%string in
  match NewObsReport (mkObsReportSettings (ID set) transport set) with
  | inr err => inr err
  | inl obsrecv =>
      inl (mkReceiver config options [] set consumer [] now nilCtx None
             (Some obsrecv))
  end.

(** [opt(kr)] *)
Definition callOption (opt : rcvOption) : M (option error) :=
  kr <- getKr ;;
  let r := runOption opt kr in
  putKr (fst r) ;;;
  ret (snd r).

(** [kr.logsConsumer.ConsumeLogs(ctx, ld)] *)
Definition callConsumeLogs (c : Context) (ld : Logs) : M (option error) :=
  kr <- getKr ;;
  w <- getWorld ;;
  let consumerErr := ConsumeLogs (logsConsumer kr) (effects w) c ld in
  emit (ConsumeLogsCall (logsConsumer kr) c ld) ;;;
  ret consumerErr.

Definition handleEvent (ev : Event) : M unit :=
  kr <- getKr ;;
  if allowEvent kr ev then
    let ld := k8sEventToLogData ev (rules kr) in
    emit (StartLogsOp (obsrecv kr) (ctx kr)) ;;;
    let c := logsOpCtx (ctx kr) in
    consumerErr <- callConsumeLogs c ld ;;
    emit (EndLogsOp (obsrecv kr) c metadataType 1 consumerErr)
  else ret tt.

(** The [AddFunc] closure of [startWatch]: the type assertion of [obj] to
    a [*corev1.Event] panics on another type, and a nil event panics when
    [handleEvent] reads its timestamps. *)
Definition callAddFunc (f : AddClosure) (obj : any) : M unit :=
  match f with
  | startWatch_func1 =>
      match obj with
      | AnyEvent ev => handleEvent ev
      | AnyNilEvent => panic "invalid memory address or nil pointer dereference"
      | AnyOther _ => panic "interface conversion: interface {} is not *v1.Event"
      end
  end.

(** The [UpdateFunc] closure of [startWatch]; the old object is ignored. *)
Definition callUpdateFunc (f : UpdateClosure) (_ obj : any) : M unit :=
  match f with
  | startWatch_func2 =>
      match obj with
      | AnyEvent ev => handleEvent ev
      | AnyNilEvent => panic "invalid memory address or nil pointer dereference"
      | AnyOther _ => panic "interface conversion: interface {} is not *v1.Event"
      end
  end.

(** startWatchingNamespace creates an informer and starts
    watching a specific namespace for the events. *)
Definition startWatchingNamespace (clientset : Client)
    (handlers : ResourceEventHandlerFuncs) (ns : string) (stopper : chan)
    : M unit :=
  goRun (mkInformer clientset "events" ns 0 handlers stopper).

(** Add the 'Event' handler and trigger the watch for a specific
    namespace. *)
Definition startWatch (ns : string) (client : Client) : M unit :=
  stopperChan <- makeChan ;;
  kr <- getKr ;;
  putKr (set_stopperChanList kr (stopperChanList kr ++ [stopperChan])) ;;;
  startWatchingNamespace client
    (mkHandlers (Some startWatch_func1) (Some startWatch_func2) None)
    ns stopperChan.

(** The loop of [Start] over [allOptions], with its early return. *)
Fixpoint Start_options (host : Host) (allOptions : list rcvOption)
    : M (option error) :=
  match allOptions with
  | [] => ret None
  | opt :: rest =>
      err <- callOption opt ;;
      match err with
      | Some e =>
          emit (LoggerError "Could not apply option" e) ;;;
          emit (ReportFatalError host e) ;;;
          ret (Some e)
      | None => Start_options host rest
      end
  end.

Definition Start (c : Context) (host : Host) : M (option error) :=
  cc <- WithCancel c ;;
  kr <- getKr ;;
  putKr (set_ctx_cancel kr (fst cc) (snd cc)) ;;;
  kr <- getKr ;;
  let allOptions := createReceiverOpts (config kr) ++ options kr in
  err <- Start_options host allOptions ;;
  match err with
  | Some e => ret (Some e)
  | None =>
      kr <- getKr ;;
      match getK8sClient (config kr) with
      | inr e => ret (Some e)
      | inl k8sInterface =>
          emit (LoggerInfo "starting to watch namespaces for the events.") ;;;
          kr <- getKr ;;
          (match Namespaces (config kr) with
           | [] => startWatch NamespaceAll k8sInterface
           | nss => forRange nss (fun ns => startWatch ns k8sInterface)
           end) ;;;
          ret None
      end
  end.

Definition Shutdown : M (option error) :=
  kr <- getKr ;;
  match cancel kr with
  | None => ret None
  | Some cancelFn =>
      (* Stop watching all the namespaces by closing all the stopper
         channels. *)
      forRange (stopperChanList kr) closeChan ;;;
      callCancel cancelFn ;;;
      ret None
  end.

(** [ResourceEventHandlerFuncs.OnAdd], [OnUpdate] and [OnDelete] of
    client-go: call the function if it is set. *)
Definition OnAdd (h : ResourceEventHandlerFuncs) (obj : any) : M unit :=
  match AddFunc h with
  | Some f => callAddFunc f obj
  | None => ret tt
  end.

Definition OnUpdate (h : ResourceEventHandlerFuncs) (oldObj newObj : any)
    : M unit :=
  match UpdateFunc h with
  | Some f => callUpdateFunc f oldObj newObj
  | None => ret tt
  end.

Definition OnDelete (h : ResourceEventHandlerFuncs) (obj : any) : M unit :=
  match DeleteFunc h with
  | Some f => match f with end
  | None => ret tt
  end.

Definition notify (i : Informer) (n : Notification) : M unit :=
  match n with
  | Added obj => OnAdd (Handler i) obj
  | Updated oldObj newObj => OnUpdate (Handler i) oldObj newObj
  | Deleted obj => OnDelete (Handler i) obj
  end.

(** One call into the system; a notification from an informer that was
    never started reaches nothing. *)
Definition step (c : Call) : M unit :=
  match c with
  | CallStart c host => Start c host ;;; ret tt
  | CallShutdown => Shutdown ;;; ret tt
  | CallNotify idx n =>
      w <- getWorld ;;
      match informers w !! idx with
      | Some i => notify i n
      | None => ret tt
      end
  end.

Definition run (calls : list Call) : M unit := forRange calls step.

(** Applying options in order up to the first failure, as the startup
    contract words it: the receiver as the options leave it, and the
    error of the option that failed, if one did. *)
Fixpoint applyOptions (opts : list rcvOption) (kr : k8seventsReceiver)
    : k8seventsReceiver * option error :=
  match opts with
  | [] => (kr, None)
  | opt :: rest =>
      match runOption opt kr with
      | (kr', Some e) => (kr', Some e)
      | (kr', None) => applyOptions rest kr'
      end
  end.

(** The options of this receiver configure its extraction rules and leave
    the other fields of the struct alone. *)
Definition optionsSetRulesOnly : Prop :=
  forall (opt : rcvOption) (kr : k8seventsReceiver),
    fst (runOption opt kr) = set_rules kr (rules (fst (runOption opt kr))).

(** The three effects of delivering [ev], in order, when the trace so far
    is [es]. *)
Definition deliveryEffects (kr : k8seventsReceiver) (es : list Effect)
    (ev : Event) : list Effect :=
  let ld := k8sEventToLogData ev (rules kr) in
  let c := logsOpCtx (ctx kr) in
  [ StartLogsOp (obsrecv kr) (ctx kr);
    ConsumeLogsCall (logsConsumer kr) c ld;
    EndLogsOp (obsrecv kr) c metadataType 1
      (ConsumeLogs (logsConsumer kr)
         (es ++ [StartLogsOp (obsrecv kr) (ctx kr)]) c ld) ].


(* ===================================================================== *)
(** ** Facts about [time.Time]                                            *)
(* ===================================================================== *)

Lemma Location_eqb_eq (a b : time.Location) :
  time.Location_eqb a b = true <-> a = b.
Proof.
  destruct a as [|i], b as [|j]; simpl; split; intro H;
    try reflexivity; try discriminate.
  - apply Nat.eqb_eq in H. now subst.
  - injection H as ->. apply Nat.eqb_refl.
Qed.

Lemma time_eqb_eq (t u : time.Time) : time.eqb t u = true <-> t = u.
Proof.
  destruct t as [w1 e1 l1], u as [w2 e2 l2]; unfold time.eqb; simpl.
  rewrite !andb_true_iff, !Z.eqb_eq. split.
  - intros [[-> ->] Hl]. f_equal.
    destruct l1, l2; simpl in Hl; try discriminate; try reflexivity.
    apply Location_eqb_eq in Hl. now subst.
  - intros H. injection H as -> -> ->. repeat split.
    destruct l2; simpl; [now apply Location_eqb_eq | reflexivity].
Qed.

Lemma time_eqb_neq (t u : time.Time) : time.eqb t u = false <-> t <> u.
Proof.
  rewrite <- time_eqb_eq. destruct (time.eqb t u); split; congruence.
Qed.

(** The test of one bit against a mask made of that bit alone. *)
Lemma land_bit_zero (a : Z) (n : Z) :
  0 <= n -> (Z.land a (Z.shiftl 1 n) =? 0) = negb (Z.testbit a n).
Proof.
  intros Hn. rewrite Z.shiftl_1_l.
  destruct (Z.testbit a n) eqn:Hb; simpl.
  - apply Z.eqb_neq. intros H0.
    assert (Hx : Z.testbit (Z.land a (2 ^ n)) n = false)
      by (rewrite H0; apply Z.bits_0).
    rewrite Z.land_spec, Hb, Z.pow2_bits_true in Hx by exact Hn.
    discriminate.
  - apply Z.eqb_eq. apply Z.bits_inj'. intros m Hm.
    rewrite Z.land_spec, Z.bits_0, Z.pow2_bits_eqb by exact Hn.
    destruct (Z.eqb_spec n m) as [->|]; [now rewrite Hb | apply andb_false_r].
Qed.

Lemma monotonic_testbit (t : time.Time) :
  time.monotonic t = Z.testbit (time.wall t) 63.
Proof.
  unfold time.monotonic, time.hasMonotonic.
  rewrite land_bit_zero by lia. apply negb_involutive.
Qed.

Lemma Before_unfold (t u : time.Time) :
  time.Before t u =
    if time.bothMonotonic t u then time.ext t <? time.ext u
    else (time.sec t <? time.sec u)
         || ((time.sec t =? time.sec u) && (time.nsec t <? time.nsec u)).
Proof.
  unfold time.Before, time.bothMonotonic, time.hasMonotonic.
  rewrite land_bit_zero by lia. rewrite Z.land_spec, negb_involutive.
  now rewrite !monotonic_testbit.
Qed.

Lemma nsec_nonneg (t : time.Time) : 0 <= time.nsec t.
Proof.
  unfold time.nsec. apply Z.land_nonneg. right.
  unfold time.nsecMask. now vm_compute.
Qed.

Lemma Before_irrefl (t : time.Time) : time.Before t t = false.
Proof.
  rewrite Before_unfold. destruct (time.bothMonotonic t t).
  - apply Z.ltb_irrefl.
  - now rewrite !Z.ltb_irrefl, andb_false_r.
Qed.

(** Without a shared monotonic reading, [Before] is the order of the
    instants on the wall clock. *)
Lemma Before_wall (t u : time.Time) :
  time.bothMonotonic t u = false -> time.valid t -> time.valid u ->
  (time.Before t u = true <-> time.wallNanos t < time.wallNanos u).
Proof.
  intros Hm Ht Hu. rewrite Before_unfold, Hm.
  unfold time.valid, time.wallNanos in *.
  pose proof (nsec_nonneg t). pose proof (nsec_nonneg u).
  rewrite orb_true_iff, andb_true_iff, !Z.ltb_lt, Z.eqb_eq. lia.
Qed.

(** With a monotonic reading on both sides, [Before] is the order of the
    monotonic clock. *)
Lemma Before_monotonic (t u : time.Time) :
  time.bothMonotonic t u = true ->
  (time.Before t u = true <-> time.ext t < time.ext u).
Proof.
  intros Hm. rewrite Before_unfold, Hm. apply Z.ltb_lt.
Qed.

(** A reading that carries a monotonic part lies after the zero time. *)
Lemma Before_zero_monotonic (t : time.Time) :
  time.monotonic t = true -> time.Before time.zero t = true.
Proof.
  intros Hm. rewrite Before_unfold.
  assert (Hz : time.bothMonotonic time.zero t = false) by reflexivity.
  rewrite Hz. apply orb_true_iff. left. apply Z.ltb_lt.
  unfold time.sec at 2. rewrite Hm.
  assert (H0 : time.sec time.zero = 0) by reflexivity. rewrite H0.
  assert (0 <= Z.shiftr (Z.shiftl (time.wall t) 1 mod 2 ^ 64)
                 (time.nsecShift + 1)).
  { apply Z.shiftr_nonneg. apply Z.mod_pos_bound. lia. }
  assert (0 < time.wallToInternal) by now vm_compute.
  lia.
Qed.

(* ===================================================================== *)
(** ** Timestamp resolver and startup flood filter                        *)
(* ===================================================================== *)

Lemma getEventTimestamp_cases (ev : Event) :
  getEventTimestamp ev =
    if time.eqb (EventTime ev) time.zero then
      if time.eqb (LastTimestamp ev) time.zero then
        if time.eqb (FirstTimestamp ev) time.zero then time.zero
        else FirstTimestamp ev
      else LastTimestamp ev
    else EventTime ev.
Proof.
  unfold getEventTimestamp.
  destruct (time.eqb (EventTime ev) time.zero),
    (time.eqb (LastTimestamp ev) time.zero),
    (time.eqb (FirstTimestamp ev) time.zero); reflexivity.
Qed.

Lemma getEventTimestamp_absent (ev : Event) :
  EventTime ev = time.zero -> LastTimestamp ev = time.zero ->
  FirstTimestamp ev = time.zero -> getEventTimestamp ev = time.zero.
Proof.
  intros He Hl Hf. rewrite getEventTimestamp_cases, He, Hl, Hf. reflexivity.
Qed.

(** C1. [getEventTimestamp] returns EventTime when that field is not the
    zero time value; otherwise LastTimestamp when that is not the zero
    value; otherwise FirstTimestamp when that is not the zero value;
    otherwise the zero time value.  The function is total, and its result
    is determined by the three timestamp fields alone. *)
Theorem getEventTimestamp_priority (ev : Event) :
  (EventTime ev <> time.zero -> getEventTimestamp ev = EventTime ev) /\
  (EventTime ev = time.zero -> LastTimestamp ev <> time.zero ->
   getEventTimestamp ev = LastTimestamp ev) /\
  (EventTime ev = time.zero -> LastTimestamp ev = time.zero ->
   FirstTimestamp ev <> time.zero ->
   getEventTimestamp ev = FirstTimestamp ev) /\
  (EventTime ev = time.zero -> LastTimestamp ev = time.zero ->
   FirstTimestamp ev = time.zero -> getEventTimestamp ev = time.zero) /\
  (forall ev' : Event,
     EventTime ev' = EventTime ev -> LastTimestamp ev' = LastTimestamp ev ->
     FirstTimestamp ev' = FirstTimestamp ev ->
     getEventTimestamp ev' = getEventTimestamp ev).
Proof.
  rewrite getEventTimestamp_cases. repeat split.
  - intros H. apply time_eqb_neq in H. now rewrite H.
  - intros He Hl. apply time_eqb_eq in He. apply time_eqb_neq in Hl.
    now rewrite He, Hl.
  - intros He Hl Hf. apply time_eqb_eq in He, Hl. apply time_eqb_neq in Hf.
    now rewrite He, Hl, Hf.
  - intros He Hl Hf. apply time_eqb_eq in He, Hl, Hf.
    now rewrite He, Hl, Hf.
  - intros ev' He Hl Hf. rewrite getEventTimestamp_cases, He, Hl, Hf.
    reflexivity.
Qed.

(** C2. [allowEvent] accepts an event exactly when its resolved timestamp
    is not strictly earlier than the start time, in the sense of Go's
    [Before].  A timestamp equal to the start time is accepted.  Compared
    on the wall clock, acceptance means start instant <= event instant, so
    an event at the start instant minus any positive duration is rejected;
    compared on the monotonic clock, the same holds of the monotonic
    readings. *)
Theorem allowEvent_iff_not_earlier (kr : k8seventsReceiver) (ev : Event) :
  let ts := getEventTimestamp ev in
  let T := startTime kr in
  (allowEvent kr ev = true <-> time.Before ts T = false) /\
  (ts = T -> allowEvent kr ev = true) /\
  (time.bothMonotonic ts T = false -> time.valid ts -> time.valid T ->
   (allowEvent kr ev = true <-> time.wallNanos T <= time.wallNanos ts) /\
   (forall d : Z, 0 < d -> time.wallNanos ts = time.wallNanos T - d ->
                  allowEvent kr ev = false)) /\
  (time.bothMonotonic ts T = true ->
   (allowEvent kr ev = true <-> time.ext T <= time.ext ts) /\
   (forall d : Z, 0 < d -> time.ext ts = time.ext T - d ->
                  allowEvent kr ev = false)).
Proof.
  intros ts T. unfold allowEvent. fold ts. fold T.
  assert (Hneg : forall b, negb b = true <-> b = false)
    by (intros []; simpl; split; congruence).
  assert (Hneg' : forall b, negb b = false <-> b = true)
    by (intros []; simpl; split; congruence).
  split; [apply Hneg|]. split; [|split].
  - intros ->. apply Hneg, Before_irrefl.
  - intros Hm Hts HT. pose proof (Before_wall ts T Hm Hts HT) as Hw. split.
    + rewrite Hneg. destruct (time.Before ts T); split; intro H;
        try discriminate; try reflexivity.
      * assert (time.wallNanos ts < time.wallNanos T) by now apply Hw.
        lia.
      * destruct (Z.lt_ge_cases (time.wallNanos ts) (time.wallNanos T))
          as [Hlt|Hge]; [apply Hw in Hlt; discriminate | exact Hge].
    + intros d Hd Heq. apply Hneg', Hw. lia.
  - intros Hm. pose proof (Before_monotonic ts T Hm) as Hw. split.
    + rewrite Hneg. destruct (time.Before ts T); split; intro H;
        try discriminate; try reflexivity.
      * assert (time.ext ts < time.ext T) by now apply Hw.
        lia.
      * destruct (Z.lt_ge_cases (time.ext ts) (time.ext T))
          as [Hlt|Hge]; [apply Hw in Hlt; discriminate | exact Hge].
    + intros d Hd Heq. apply Hneg', Hw. lia.
Qed.

(** An event whose three timestamp fields are all absent is rejected
    exactly when the zero time is strictly earlier than the start time;
    that is so for every start time that carries a monotonic clock
    reading. *)
Lemma allowEvent_absent_timestamps (kr : k8seventsReceiver) (ev : Event) :
  EventTime ev = time.zero -> LastTimestamp ev = time.zero ->
  FirstTimestamp ev = time.zero ->
  (allowEvent kr ev = false <-> time.Before time.zero (startTime kr) = true)
  /\ (time.monotonic (startTime kr) = true -> allowEvent kr ev = false).
Proof.
  intros He Hl Hf. unfold allowEvent.
  rewrite (getEventTimestamp_absent ev He Hl Hf). split.
  - destruct (time.Before time.zero (startTime kr)); simpl; split; congruence.
  - intros Hm. now rewrite (Before_zero_monotonic _ Hm).
Qed.

(* ===================================================================== *)
(** ** Handling one event                                                 *)
(* ===================================================================== *)

Lemma handleEvent_rejected (kr : k8seventsReceiver) (w : World) (ev : Event) :
  allowEvent kr ev = false -> handleEvent ev (kr, w) = Ok tt (kr, w).
Proof.
  intros H. unfold handleEvent, bind, getKr. simpl.
  now rewrite H.
Qed.

Lemma handleEvent_accepted (kr : k8seventsReceiver) (w : World) (ev : Event) :
  allowEvent kr ev = true ->
  handleEvent ev (kr, w)
  = Ok tt (kr, withEffects w (deliveryEffects kr (effects w) ev)).
Proof.
  intros H. unfold handleEvent, bind, getKr. simpl.
  rewrite H. unfold callConsumeLogs, emit, bind, getKr, getWorld, putWorld, ret.
  simpl. unfold withEffects, deliveryEffects. simpl.
  now rewrite <- !app_assoc.
Qed.


Lemma notify_added_event (inf : Informer) (ev : Event) (s : State) :
  Handler inf = watchHandlers ->
  notify inf (Added (AnyEvent ev)) s = handleEvent ev s.
Proof. intros H. unfold notify, OnAdd. now rewrite H. Qed.

Lemma notify_updated_event (inf : Informer) (oldObj : any) (ev : Event)
    (s : State) :
  Handler inf = watchHandlers ->
  notify inf (Updated oldObj (AnyEvent ev)) s = handleEvent ev s.
Proof. intros H. unfold notify, OnUpdate. now rewrite H. Qed.

Lemma run_cons (c : Call) (calls : list Call) (s : State) :
  run (c :: calls) s
  = match step c s with
    | Ok _ s' => run calls s'
    | Panic msg => Panic msg
    end.
Proof. reflexivity. Qed.

Lemma step_notify (idx : nat) (inf : Informer) (n : Notification)
    (s : State) :
  informers (snd s) !! idx = Some inf ->
  step (CallNotify idx n) s = notify inf n s.
Proof.
  intros H. unfold step, bind, getWorld. now rewrite H.
Qed.

Lemma step_notify_none (idx : nat) (n : Notification) (s : State) :
  informers (snd s) !! idx = None -> step (CallNotify idx n) s = Ok tt s.
Proof.
  intros H. unfold step, bind, getWorld. now rewrite H.
Qed.

Lemma startWatch_runs (ns : string) (client : Client)
    (kr : k8seventsReceiver) (w : World) :
  startWatch ns client (kr, w)
  = Ok tt
      (set_stopperChanList kr (stopperChanList kr ++ [length (chans w)]),
       mkWorld (chans w ++ [false]) (cancelled w)
         (informers w ++ [watchOf client ns (length (chans w))])
         (effects w)).
Proof. reflexivity. Qed.

(** C8. The informer that [startWatch] starts treats a notification of an
    added object and a notification of an updated object alike: on every
    new object, whatever the old one, and in every state, the two handlers
    compute the same result, which for an event is that of [handleEvent]. *)
Theorem added_updated_handlers_agree (ns : string) (client : Client)
    (s : State) :
  exists (s' : State) (inf : Informer),
    startWatch ns client s = Ok tt s' /\
    informers (snd s') = informers (snd s) ++ [inf] /\
    (forall (obj oldObj : any) (st : State),
       notify inf (Added obj) st = notify inf (Updated oldObj obj) st) /\
    (forall (obj oldObj : any) (st : State),
       OnAdd (Handler inf) obj st = OnUpdate (Handler inf) oldObj obj st) /\
    (forall (ev : Event) (st : State),
       notify inf (Added (AnyEvent ev)) st = handleEvent ev st).
Proof.
  destruct s as [kr w]. rewrite startWatch_runs.
  eexists. exists (watchOf client ns (length (chans w))).
  split; [reflexivity|]. split; [reflexivity|].
  repeat split; intros; simpl; try reflexivity;
    destruct obj; reflexivity.
Qed.

(** C9. When the consumer answers a delivered record with an error,
    [handleEvent] starts the logs operation, calls the consumer once, ends
    the operation with that error and one record, and returns: the
    receiver is unchanged, nothing is delivered again, and the calls that
    follow the notification run as they would after any other one. *)
Theorem handleEvent_consumer_error (kr : k8seventsReceiver) (w : World)
    (ev : Event) (e : error) :
  allowEvent kr ev = true ->
  ConsumeLogs (logsConsumer kr)
    (effects w ++ [StartLogsOp (obsrecv kr) (ctx kr)])
    (logsOpCtx (ctx kr)) (k8sEventToLogData ev (rules kr)) = Some e ->
  let s' :=
    (kr, withEffects w
           [ StartLogsOp (obsrecv kr) (ctx kr);
             ConsumeLogsCall (logsConsumer kr) (logsOpCtx (ctx kr))
               (k8sEventToLogData ev (rules kr));
             EndLogsOp (obsrecv kr) (logsOpCtx (ctx kr)) metadataType 1
               (Some e) ]) in
  handleEvent ev (kr, w) = Ok tt s' /\
  (forall (idx : nat) (inf : Informer) (calls : list Call),
     informers w !! idx = Some inf -> Handler inf = watchHandlers ->
     run (CallNotify idx (Added (AnyEvent ev)) :: calls) (kr, w)
     = run calls s').
Proof.
  intros Ha He s'.
  assert (Hh : handleEvent ev (kr, w) = Ok tt s').
  { rewrite (handleEvent_accepted kr w ev Ha).
    unfold s', deliveryEffects. now rewrite He. }
  split; [exact Hh|].
  intros idx inf calls Hi Hw.
  rewrite run_cons, (step_notify idx inf) by exact Hi.
  now rewrite (notify_added_event inf ev (kr, w) Hw), Hh.
Qed.


(* ===================================================================== *)
(** ** Startup                                                            *)
(* ===================================================================== *)

Lemma Start_options_runs (host : Host) (opts : list rcvOption)
    (kr : k8seventsReceiver) (w : World) :
  Start_options host opts (kr, w)
  = match applyOptions opts kr with
    | (kr', Some e) =>
        Ok (Some e)
          (kr', withEffects w [ LoggerError "Could not apply option" e;
                                ReportFatalError host e ])
    | (kr', None) => Ok None (kr', w)
    end.
Proof.
  revert kr. induction opts as [|opt rest IH]; intros kr; [reflexivity|].
  simpl. unfold bind at 1. unfold callOption, bind, getKr, putKr, ret. simpl.
  destruct (runOption opt kr) as [kr' [e|]]; simpl.
  - unfold emit, bind, getWorld, putWorld, withEffects. simpl.
    now rewrite <- app_assoc.
  - apply IH.
Qed.

Lemma startWatches_run (client : Client) (nss : list string)
    (kr : k8seventsReceiver) (w : World) :
  forRange nss (fun ns => startWatch ns client) (kr, w)
  = Ok tt (afterWatches client nss kr w).
Proof.
  revert kr w. induction nss as [|ns rest IH]; intros kr w.
  - unfold afterWatches. simpl. rewrite !app_nil_r.
    now destruct kr, w.
  - simpl. unfold bind. rewrite startWatch_runs, IH.
    unfold afterWatches. simpl.
    rewrite length_app. simpl. rewrite Nat.add_1_r.
    now rewrite <- !app_assoc.
Qed.

Lemma afterWatches_one (client : Client) (ns : string)
    (kr : k8seventsReceiver) (w : World) :
  startWatch ns client (kr, w) = Ok tt (afterWatches client [ns] kr w).
Proof. now rewrite startWatch_runs. Qed.

(** [Start], step by step, on the result of applying the options. *)
Lemma Start_runs (c : Context) (host : Host) (kr : k8seventsReceiver)
    (w : World) :
  let s1 := withContext c kr w in
  Start c host (kr, w)
  = match applyOptions (createReceiverOpts (config kr) ++ options kr)
            (fst s1) with
    | (kr2, Some e) =>
        Ok (Some e)
          (kr2, withEffects (snd s1)
                  [ LoggerError "Could not apply option" e;
                    ReportFatalError host e ])
    | (kr2, None) =>
        match getK8sClient (config kr2) with
        | inr e => Ok (Some e) (kr2, snd s1)
        | inl client =>
            Ok None
              (afterWatches client (watchTargets (config kr2)) kr2
                 (withEffects (snd s1)
                    [LoggerInfo
                       "starting to watch namespaces for the events."]))
        end
    end.
Proof.
  intros s1. subst s1. unfold withContext. cbn [fst snd].
  set (kr1 := set_ctx_cancel kr _ _). set (w1 := mkWorld _ _ _ _).
  unfold Start. unfold bind at 1.
  cbv [WithCancel bind getWorld putWorld getKr putKr ret fst snd].
  fold (bind (A := option error) (B := option error)).
  fold kr1. fold w1.
  change (config kr1) with (config kr).
  change (options kr1) with (options kr).
  rewrite Start_options_runs.
  destruct (applyOptions _ kr1) as [kr2 [e|]]; [reflexivity|].
  destruct (getK8sClient (config kr2)) as [client|e]; [|reflexivity].
  cbv [emit bind getWorld putWorld getKr ret fst snd].
  unfold watchTargets.
  destruct (Namespaces (config kr2)) as [|ns rest] eqn:Hn.
  - now rewrite afterWatches_one.
  - now rewrite startWatches_run.
Qed.

Lemma set_rules_frame (kr kr' : k8seventsReceiver) :
  kr' = set_rules kr (rules kr') ->
  config kr' = config kr /\ options kr' = options kr /\
  stopperChanList kr' = stopperChanList kr /\
  startTime kr' = startTime kr /\ cancel kr' = cancel kr.
Proof. intros ->. repeat split. Qed.

Lemma applyOptions_frame (opts : list rcvOption) (kr : k8seventsReceiver) :
  optionsSetRulesOnly ->
  fst (applyOptions opts kr)
  = set_rules kr (rules (fst (applyOptions opts kr))).
Proof.
  intros Hf. revert kr. induction opts as [|opt rest IH]; intros kr.
  - now destruct kr.
  - simpl. pose proof (Hf opt kr) as Ho.
    destruct (runOption opt kr) as [kr' [e|]]; [exact Ho|].
    simpl in Ho. rewrite (IH kr') at 1. rewrite Ho at 1. reflexivity.
Qed.

Lemma watchOf_handlers (client : Client) (nss : list string)
    (chs : list chan) :
  Forall (fun i => Handler i = watchHandlers)
    (zip_with (watchOf client) nss chs).
Proof.
  revert chs. induction nss as [|ns rest IH]; intros [|ch chs]; simpl;
    constructor; [reflexivity | apply IH].
Qed.

(** C5. When every option applies and the client is obtained, [Start]
    returns no error and starts exactly one watch per target, in order:
    the all-namespaces sentinel alone if no namespace is configured, the
    configured namespaces otherwise.  Each watch gets a stopper channel of
    its own, newly made and open, appended to [stopperChanList] in the
    same order. *)
Theorem Start_one_watch_per_namespace (c : Context) (host : Host)
    (kr : k8seventsReceiver) (w : World) (client : Client) :
  optionsSetRulesOnly ->
  snd (applyOptions (createReceiverOpts (config kr) ++ options kr)
         (fst (withContext c kr w))) = None ->
  getK8sClient (config kr) = inl client ->
  let targets :=
    match Namespaces (config kr) with
    | [] => [NamespaceAll]
    | nss => nss
    end in
  let stoppers := seq (length (chans w)) (length targets) in
  exists (kr' : k8seventsReceiver) (w' : World),
    Start c host (kr, w) = Ok None (kr', w') /\
    informers w'
    = informers w
      ++ zip_with
           (fun ns ch =>
              mkInformer client "events" ns 0
                (mkHandlers (Some startWatch_func1) (Some startWatch_func2)
                   None) ch)
           targets stoppers /\
    stopperChanList kr' = stopperChanList kr ++ stoppers /\
    chans w' = chans w ++ replicate (length targets) false /\
    length (informers w') = (length (informers w) + length targets)%nat.
Proof.
  intros Hf Ho Hc targets stoppers.
  pose proof (Start_runs c host kr w) as Hs. cbv zeta in Hs.
  pose proof (applyOptions_frame
                (createReceiverOpts (config kr) ++ options kr)
                (fst (withContext c kr w)) Hf) as Hfr.
  destruct (applyOptions _ (fst (withContext c kr w))) as [kr2 o].
  simpl in Ho, Hfr. subst o.
  apply set_rules_frame in Hfr. destruct Hfr as (Hcfg & _ & Hst & _).
  simpl in Hcfg, Hst. rewrite Hcfg, Hc in Hs.
  unfold afterWatches in Hs. simpl in Hs.
  eexists. eexists. split; [exact Hs|]. simpl.
  fold targets. change (watchTargets (config kr)) with targets.
  fold stoppers. rewrite Hst.
  repeat split.
  rewrite length_app, length_zip_with. subst stoppers.
  rewrite length_seq. lia.
Qed.

Lemma notifications_reach_nothing (s : State)
    (ns : list (nat * Notification)) :
  informers (snd s) = [] ->
  run (map (fun p => CallNotify (fst p) (snd p)) ns) s = Ok tt s.
Proof.
  intros Hi. induction ns as [|[idx n] rest IH]; [reflexivity|].
  simpl map. rewrite run_cons, step_notify_none; [exact IH|].
  now rewrite Hi.
Qed.

(** C6. When an option fails, or all options apply and the client cannot
    be obtained, [Start] returns that error and starts no watch: the
    informers, the channels and [stopperChanList] are as before, and if no
    informer ran before, no notification reaches the receiver afterwards. *)
Theorem Start_failure_starts_no_watch (c : Context) (host : Host)
    (kr : k8seventsReceiver) (w : World) (e : error) :
  optionsSetRulesOnly ->
  let r := applyOptions (createReceiverOpts (config kr) ++ options kr)
             (fst (withContext c kr w)) in
  snd r = Some e \/ (snd r = None /\ getK8sClient (config kr) = inr e) ->
  exists (kr' : k8seventsReceiver) (w' : World),
    Start c host (kr, w) = Ok (Some e) (kr', w') /\
    informers w' = informers w /\
    chans w' = chans w /\
    stopperChanList kr' = stopperChanList kr /\
    (informers w = [] ->
     forall ns : list (nat * Notification),
       run (map (fun p => CallNotify (fst p) (snd p)) ns) (kr', w')
       = Ok tt (kr', w')).
Proof.
  intros Hf r Hr.
  pose proof (Start_runs c host kr w) as Hs. cbv zeta in Hs.
  pose proof (applyOptions_frame
                (createReceiverOpts (config kr) ++ options kr)
                (fst (withContext c kr w)) Hf) as Hfr.
  fold r in Hs, Hfr. destruct r as [kr2 o]. simpl in Hr, Hfr.
  apply set_rules_frame in Hfr. destruct Hfr as (Hcfg & _ & Hst & _).
  simpl in Hcfg, Hst.
  destruct Hr as [-> | [-> Hc]].
  - eexists. eexists. split; [exact Hs|]. simpl.
    repeat split; try assumption.
    intros Hi ns. now apply notifications_reach_nothing.
  - rewrite Hcfg, Hc in Hs.
    eexists. eexists. split; [exact Hs|]. simpl.
    repeat split; try assumption.
    intros Hi ns. now apply notifications_reach_nothing.
Qed.

(* ===================================================================== *)
(** ** The start time over the life of the receiver                       *)
(* ===================================================================== *)

Lemma handleEvent_frame (ev : Event) (kr : k8seventsReceiver) (w : World)
    (r : result unit) :
  handleEvent ev (kr, w) = r ->
  exists es, r = Ok tt (kr, withEffects w es).
Proof.
  intros <-. destruct (allowEvent kr ev) eqn:Ha.
  - rewrite handleEvent_accepted by exact Ha. now eexists.
  - rewrite handleEvent_rejected by exact Ha. exists [].
    unfold withEffects. rewrite app_nil_r. now destruct w.
Qed.

Lemma notify_frame (inf : Informer) (n : Notification)
    (kr : k8seventsReceiver) (w : World) (s' : State) :
  notify inf n (kr, w) = Ok tt s' ->
  fst s' = kr /\ informers (snd s') = informers w.
Proof.
  assert (Hh : forall ev, handleEvent ev (kr, w) = Ok tt s' ->
                          fst s' = kr /\ informers (snd s') = informers w).
  { intros ev H. apply handleEvent_frame in H. destruct H as [es H].
    injection H as ->. now split. }
  destruct inf as [cl rs ns rp [[[]|] [[]|] [[]|]] st];
    destruct n as [obj|oldObj obj|obj]; simpl;
    try destruct obj; simpl; intros H;
    try discriminate; try (now apply (Hh ev));
    injection H as <-; now split.
Qed.

Lemma closeAll_frame (l : list chan) (kr : k8seventsReceiver) (w : World)
    (s' : State) :
  forRange l closeChan (kr, w) = Ok tt s' ->
  fst s' = kr /\ informers (snd s') = informers w /\
  cancelled (snd s') = cancelled w /\ effects (snd s') = effects w.
Proof.
  revert w. induction l as [|c rest IH]; intros w; simpl.
  - intros [= <-]. now repeat split.
  - unfold bind at 1. unfold closeChan, bind, getWorld. simpl.
    destruct (chans w !! c) as [[|]|]; try discriminate.
    unfold putWorld. simpl. intros H. apply IH in H. exact H.
Qed.

Lemma Shutdown_frame (kr : k8seventsReceiver) (w : World)
    (r : option error) (s' : State) :
  Shutdown (kr, w) = Ok r s' ->
  r = None /\ fst s' = kr /\ informers (snd s') = informers w.
Proof.
  unfold Shutdown, bind at 1, getKr. simpl.
  destruct (cancel kr) as [f|].
  - unfold bind at 1.
    destruct (forRange (stopperChanList kr) closeChan (kr, w))
      as [[] s1|] eqn:Hc; [|discriminate].
    apply closeAll_frame in Hc. destruct Hc as (Hk & Hi & _).
    destruct s1 as [kr1 w1]. simpl in Hk, Hi. subst kr1.
    unfold callCancel, bind, getWorld, putWorld, ret. simpl.
    intros [= <- <-]. now repeat split.
  - unfold ret. intros [= <- <-]. now repeat split.
Qed.

Lemma Start_frame (c : Context) (host : Host) (kr : k8seventsReceiver)
    (w : World) (r : option error) (s' : State) :
  optionsSetRulesOnly ->
  Start c host (kr, w) = Ok r s' ->
  startTime (fst s') = startTime kr /\
  exists new, informers (snd s') = informers w ++ new /\
              Forall (fun i => Handler i = watchHandlers) new.
Proof.
  intros Hf. rewrite Start_runs.
  pose proof (applyOptions_frame
                (createReceiverOpts (config kr) ++ options kr)
                (fst (withContext c kr w)) Hf) as Hfr.
  destruct (applyOptions _ (fst (withContext c kr w))) as [kr2 o].
  simpl in Hfr. apply set_rules_frame in Hfr.
  destruct Hfr as (_ & _ & _ & Ht & _). simpl in Ht.
  destruct o as [e|]; [|destruct (getK8sClient (config kr2)) as [cl|e]].
  - intros [= <- <-]. simpl. split; [exact Ht|].
    exists []. now rewrite app_nil_r.
  - intros [= <- <-]. simpl. split; [exact Ht|].
    eexists. split; [reflexivity | apply watchOf_handlers].
  - intros [= <- <-]. simpl. split; [exact Ht|].
    exists []. now rewrite app_nil_r.
Qed.

Lemma step_invariant (now : time.Time) (call : Call) (s s' : State) :
  optionsSetRulesOnly ->
  watchInvariant now s -> step call s = Ok tt s' -> watchInvariant now s'.
Proof.
  intros Hf [Ht Hh]. destruct s as [kr w]. simpl in Ht, Hh.
  destruct call as [c host| |idx n]; unfold step.
  - unfold bind at 1.
    destruct (Start c host (kr, w)) as [r s1|] eqn:Hs; [|discriminate].
    unfold ret. intros [= <-].
    apply (Start_frame _ _ _ _ _ _ Hf) in Hs.
    destruct Hs as (Hst & new & Hi & Hn). split.
    + now rewrite Hst.
    + rewrite Hi. apply Forall_app. now split.
  - unfold bind at 1.
    destruct (Shutdown (kr, w)) as [r s1|] eqn:Hs; [|discriminate].
    unfold ret. intros [= <-].
    apply Shutdown_frame in Hs. destruct Hs as (_ & Hk & Hi).
    split; [now rewrite Hk | now rewrite Hi].
  - unfold bind, getWorld. simpl.
    destruct (informers w !! idx) as [inf|].
    + intros H. apply notify_frame in H. destruct H as [Hk Hi].
      split; [now rewrite Hk | now rewrite Hi].
    + unfold ret. intros [= <-]. now split.
Qed.

Lemma run_invariant (now : time.Time) (calls : list Call) (s s' : State) :
  optionsSetRulesOnly ->
  watchInvariant now s -> run calls s = Ok tt s' -> watchInvariant now s'.
Proof.
  intros Hf. revert s. induction calls as [|call rest IH]; intros s Hi.
  - intros [= <-]. exact Hi.
  - rewrite run_cons.
    destruct (step call s) as [[] s1|] eqn:Hs; [|discriminate].
    apply IH. exact (step_invariant now call s s1 Hf Hi Hs).
Qed.

Lemma newReceiver_startTime (set : Settings) (cfg : Config)
    (consumer : Consumer) (opts : list rcvOption) (now : time.Time)
    (kr0 : k8seventsReceiver) :
  newReceiver set cfg consumer opts now = inl kr0 ->
  startTime kr0 = now /\ stopperChanList kr0 = [] /\ cancel kr0 = None.
Proof.
  unfold newReceiver. destruct (NewObsReport _); [|discriminate].
  intros [= <-]. now repeat split.
Qed.

(** C3. Let the receiver be built by [newReceiver] at a clock reading
    [now] later than the zero time, as every reading of a real clock is.
    An event whose three timestamp fields are all absent resolves to the
    zero time value and is rejected by [allowEvent], whatever that start
    time is. *)
Theorem allowEvent_rejects_absent_timestamps (set : Settings) (cfg : Config)
    (consumer : Consumer) (opts : list rcvOption) (now : time.Time)
    (kr : k8seventsReceiver) (ev : Event) :
  newReceiver set cfg consumer opts now = inl kr ->
  time.Before time.zero now = true ->
  EventTime ev = time.zero -> LastTimestamp ev = time.zero ->
  FirstTimestamp ev = time.zero ->
  getEventTimestamp ev = time.zero /\ allowEvent kr ev = false.
Proof.
  intros Hn Hb He Hl Hf.
  apply newReceiver_startTime in Hn. destruct Hn as (Hn & _).
  split; [exact (getEventTimestamp_absent ev He Hl Hf)|].
  apply (proj1 (allowEvent_absent_timestamps kr ev He Hl Hf)).
  now rewrite Hn.
Qed.

(** C7. Let the receiver be built by [newReceiver] at the clock reading
    [now], in a world where no informer runs yet.  After any sequence of
    [Start], [Shutdown] and notifications, the start time is still [now];
    [allowEvent] decides by comparing with [now]; and a notification of an
    event from any informer, whatever its namespace, added or updated, is
    handled by [handleEvent] under that one start time: dropped without
    trace if the event is earlier than [now], delivered otherwise. *)
Theorem flood_filter_uses_construction_time (set : Settings) (cfg : Config)
    (consumer : Consumer) (opts : list rcvOption) (now : time.Time)
    (kr0 : k8seventsReceiver) (w0 : World) (calls : list Call)
    (s : State) :
  optionsSetRulesOnly ->
  newReceiver set cfg consumer opts now = inl kr0 ->
  informers w0 = [] ->
  run calls (kr0, w0) = Ok tt s ->
  startTime (fst s) = now /\
  (forall ev : Event,
     allowEvent (fst s) ev
     = negb (time.Before (getEventTimestamp ev) now)) /\
  (forall (idx : nat) (inf : Informer) (ev : Event) (oldObj : any),
     informers (snd s) !! idx = Some inf ->
     step (CallNotify idx (Added (AnyEvent ev))) s = handleEvent ev s /\
     step (CallNotify idx (Updated oldObj (AnyEvent ev))) s
     = handleEvent ev s /\
     (time.Before (getEventTimestamp ev) now = true ->
      handleEvent ev s = Ok tt s) /\
     (time.Before (getEventTimestamp ev) now = false ->
      handleEvent ev s
      = Ok tt (fst s,
               withEffects (snd s)
                 (deliveryEffects (fst s) (effects (snd s)) ev)))).
Proof.
  intros Hf Hn Hw Hr.
  apply newReceiver_startTime in Hn. destruct Hn as (Hn & _).
  assert (Hi : watchInvariant now s).
  { apply (run_invariant now calls (kr0, w0) s Hf); [|exact Hr].
    split; [exact Hn | simpl; rewrite Hw; constructor]. }
  destruct Hi as [Ht Hh]. destruct s as [kr w]. cbn [fst snd] in *.
  assert (Ha : forall ev : Event,
            allowEvent kr ev
            = negb (time.Before (getEventTimestamp ev) now))
    by (intros ev; unfold allowEvent; now rewrite Ht).
  split; [exact Ht|]. split; [exact Ha|].
  intros idx inf ev oldObj Hl.
  assert (Hwh : Handler inf = watchHandlers).
  { rewrite Forall_forall in Hh. apply Hh.
    eapply list_elem_of_lookup_2. exact Hl. }
  rewrite !(step_notify idx inf) by exact Hl.
  rewrite notify_added_event, notify_updated_event by exact Hwh.
  repeat split.
  - intros Hb. apply handleEvent_rejected. now rewrite Ha, Hb.
  - intros Hb. apply handleEvent_accepted. now rewrite Ha, Hb.
Qed.

(* ===================================================================== *)
(** ** Shutdown                                                           *)
(* ===================================================================== *)

Lemma Shutdown_never_started (kr : k8seventsReceiver) (w : World) :
  cancel kr = None -> Shutdown (kr, w) = Ok None (kr, w).
Proof.
  intros H. unfold Shutdown, bind, getKr. simpl. now rewrite H.
Qed.

(** Without a stopper channel, as after a [Start] that failed, [Shutdown]
    only cancels the context, and may be repeated. *)
Lemma Shutdown_no_watch (kr : k8seventsReceiver) (w : World)
    (f : CancelFunc) :
  cancel kr = Some f -> stopperChanList kr = [] ->
  exists w', Shutdown (kr, w) = Ok None (kr, w') /\
             Shutdown (kr, w') = Ok None (kr, w').
Proof.
  intros Hc Hl. unfold Shutdown, bind, getKr. simpl. rewrite Hc, Hl. simpl.
  unfold callCancel, bind, getWorld, putWorld, ret. simpl.
  eexists. split; [reflexivity|]. simpl. now rewrite list_insert_insert_eq.
Qed.

Lemma closeChan_closed (c : chan) (kr : k8seventsReceiver) (w : World) :
  chans w !! c = Some true ->
  closeChan c (kr, w) = Panic "close of closed channel".
Proof.
  intros H. unfold closeChan, bind, getWorld. simpl. now rewrite H.
Qed.

Lemma closeChan_returns (c : chan) (kr : k8seventsReceiver) (w : World)
    (s' : State) :
  closeChan c (kr, w) = Ok tt s' ->
  chans w !! c = Some false /\
  s' = (kr, mkWorld (<[c := true]> (chans w)) (cancelled w) (informers w)
              (effects w)).
Proof.
  unfold closeChan, bind, getWorld. simpl.
  destruct (chans w !! c) as [[|]|]; try discriminate.
  unfold putWorld. simpl. intros [= <-]. now split.
Qed.

Lemma closeAll_keeps_closed (l : list chan) (c : chan)
    (kr : k8seventsReceiver) (w : World) (s' : State) :
  chans w !! c = Some true ->
  forRange l closeChan (kr, w) = Ok tt s' ->
  chans (snd s') !! c = Some true.
Proof.
  revert w. induction l as [|c' rest IH]; intros w Hc; simpl.
  - now intros [= <-].
  - unfold bind at 1.
    destruct (closeChan c' (kr, w)) as [[] s1|] eqn:H1; [|discriminate].
    apply closeChan_returns in H1. destruct H1 as [Hopen ->].
    apply IH. simpl.
    destruct (Nat.eq_dec c' c) as [->|Hne]; [congruence|].
    now rewrite list_lookup_insert_ne.
Qed.

(** After a [Shutdown] that closed at least one stopper channel, the next
    [Shutdown] closes that channel again. *)
Lemma Shutdown_again_panics (kr : k8seventsReceiver) (w : World)
    (r : option error) (s' : State) :
  cancel kr <> None -> stopperChanList kr <> [] ->
  Shutdown (kr, w) = Ok r s' ->
  Shutdown s' = Panic "close of closed channel".
Proof.
  intros Hc Hl. unfold Shutdown at 1. unfold bind at 1, getKr. simpl.
  destruct (cancel kr) as [f|] eqn:Hcf; [clear Hc|congruence].
  destruct (stopperChanList kr) as [|c rest] eqn:Hsl; [congruence|clear Hl].
  unfold bind at 1.
  destruct (forRange (c :: rest) closeChan (kr, w)) as [[] s1|] eqn:Hall;
    [|discriminate].
  unfold callCancel, bind, getWorld, putWorld, ret. simpl.
  intros [= _ <-].
  assert (Hclosed : chans (snd s1) !! c = Some true).
  { simpl in Hall. unfold bind at 1 in Hall.
    destruct (closeChan c (kr, w)) as [[] s2|] eqn:H1; [|discriminate].
    apply closeChan_returns in H1. destruct H1 as [Hopen ->].
    eapply closeAll_keeps_closed; [|exact Hall].
    simpl. apply list_lookup_insert_eq.
    apply lookup_lt_Some in Hopen. exact Hopen. }
  apply closeAll_frame in Hall. destruct Hall as (Hk & _).
  destruct s1 as [kr1 w1]. simpl in Hk, Hclosed. subst kr1.
  unfold Shutdown, bind at 1, getKr. simpl. rewrite Hcf, Hsl.
  simpl. unfold bind at 1. unfold bind at 1.
  now rewrite closeChan_closed.
Qed.

(* ===================================================================== *)
(** ** Further properties of the resolver and the filter                  *)
(* ===================================================================== *)

(** X1. The resolved timestamp is the zero time value exactly when all
    three timestamp fields of the event are the zero value. *)
Theorem getEventTimestamp_zero_iff (ev : Event) :
  getEventTimestamp ev = time.zero <->
  EventTime ev = time.zero /\ LastTimestamp ev = time.zero /\
  FirstTimestamp ev = time.zero.
Proof.
  rewrite getEventTimestamp_cases.
  destruct (time.eqb (EventTime ev) time.zero) eqn:He;
    destruct (time.eqb (LastTimestamp ev) time.zero) eqn:Hl;
    destruct (time.eqb (FirstTimestamp ev) time.zero) eqn:Hf;
    first [apply time_eqb_eq in He | apply time_eqb_neq in He];
    first [apply time_eqb_eq in Hl | apply time_eqb_neq in Hl];
    first [apply time_eqb_eq in Hf | apply time_eqb_neq in Hf];
    intuition congruence.
Qed.

(** X2. When EventTime is populated, the filter looks at EventTime alone:
    the event is accepted exactly when EventTime is not before the start
    time, whatever LastTimestamp and FirstTimestamp hold, so two events
    with that same EventTime get the same decision. *)
Theorem allowEvent_eventTime_decides (kr : k8seventsReceiver)
    (ev ev' : Event) :
  EventTime ev <> time.zero ->
  allowEvent kr ev = negb (time.Before (EventTime ev) (startTime kr)) /\
  (EventTime ev' = EventTime ev -> allowEvent kr ev' = allowEvent kr ev).
Proof.
  intros He. unfold allowEvent.
  assert (Hp : forall e : Event, EventTime e <> time.zero ->
                                 getEventTimestamp e = EventTime e).
  { intros e H. apply time_eqb_neq in H.
    now rewrite getEventTimestamp_cases, H. }
  split; [now rewrite (Hp ev He)|].
  intros Heq. assert (He' : EventTime ev' <> time.zero) by congruence.
  now rewrite (Hp ev He), (Hp ev' He'), Heq.
Qed.

(** X3. The filter respects the order of wall-clock timestamps: if an
    event is accepted, so is every event whose resolved timestamp is not
    earlier, when neither timestamp carries a monotonic reading. *)
Theorem allowEvent_monotone (kr : k8seventsReceiver) (ev ev' : Event) :
  time.monotonic (getEventTimestamp ev) = false ->
  time.monotonic (getEventTimestamp ev') = false ->
  time.Before (getEventTimestamp ev') (getEventTimestamp ev) = false ->
  allowEvent kr ev = true -> allowEvent kr ev' = true.
Proof.
  unfold allowEvent.
  set (t := getEventTimestamp ev). set (t' := getEventTimestamp ev').
  set (T := startTime kr). intros Hm Hm' Hb Ha.
  apply negb_true_iff in Ha. apply negb_true_iff.
  rewrite Before_unfold in Hb, Ha |- *.
  unfold time.bothMonotonic in *. rewrite Hm, Hm' in *. simpl in *.
  destruct (Z.ltb_spec (time.sec t') (time.sec t));
    destruct (Z.eqb_spec (time.sec t') (time.sec t));
    destruct (Z.ltb_spec (time.nsec t') (time.nsec t));
    destruct (Z.ltb_spec (time.sec t) (time.sec T));
    destruct (Z.eqb_spec (time.sec t) (time.sec T));
    destruct (Z.ltb_spec (time.nsec t) (time.nsec T));
    simpl in Hb, Ha; try discriminate;
    destruct (Z.ltb_spec (time.sec t') (time.sec T));
    destruct (Z.eqb_spec (time.sec t') (time.sec T));
    destruct (Z.ltb_spec (time.nsec t') (time.nsec T));
    simpl; try reflexivity; lia.
Qed.

(* ===================================================================== *)
(** ** Further properties of the handlers                                 *)
(* ===================================================================== *)

Lemma reachable_handlers (set : Settings) (cfg : Config)
    (consumer : Consumer) (opts : list rcvOption) (now : time.Time)
    (kr0 : k8seventsReceiver) (w0 : World) (calls : list Call) (s : State)
    (idx : nat) (inf : Informer) :
  optionsSetRulesOnly ->
  newReceiver set cfg consumer opts now = inl kr0 ->
  informers w0 = [] ->
  run calls (kr0, w0) = Ok tt s ->
  informers (snd s) !! idx = Some inf ->
  Handler inf = watchHandlers.
Proof.
  intros Hf Hn Hw Hr Hl.
  apply newReceiver_startTime in Hn. destruct Hn as (Hn & _).
  assert (Hi : watchInvariant now s).
  { apply (run_invariant now calls (kr0, w0) s Hf); [|exact Hr].
    split; [exact Hn | simpl; rewrite Hw; constructor]. }
  destruct Hi as [_ Hh]. rewrite Forall_lookup in Hh. exact (Hh idx inf Hl).
Qed.

(** X4. The handlers of a watch assert the type of the new object without
    a check.  In every state that a receiver built by [newReceiver]
    reaches, a notification from any running informer, added or updated,
    whose new object is not an event or is a nil event, panics, whatever
    the old object. *)
Theorem notification_of_foreign_object_panics (set : Settings)
    (cfg : Config) (consumer : Consumer) (opts : list rcvOption)
    (now : time.Time) (kr0 : k8seventsReceiver) (w0 : World)
    (calls : list Call) (s : State) (idx : nat) (inf : Informer) :
  optionsSetRulesOnly ->
  newReceiver set cfg consumer opts now = inl kr0 ->
  informers w0 = [] ->
  run calls (kr0, w0) = Ok tt s ->
  informers (snd s) !! idx = Some inf ->
  forall (oldObj : any) (typeName : string),
    step (CallNotify idx (Added (AnyOther typeName))) s
    = Panic "interface conversion: interface {} is not *v1.Event" /\
    step (CallNotify idx (Updated oldObj (AnyOther typeName))) s
    = Panic "interface conversion: interface {} is not *v1.Event" /\
    step (CallNotify idx (Added AnyNilEvent)) s
    = Panic "invalid memory address or nil pointer dereference" /\
    step (CallNotify idx (Updated oldObj AnyNilEvent)) s
    = Panic "invalid memory address or nil pointer dereference".
Proof.
  intros Hf Hn Hw Hr Hl oldObj typeName.
  pose proof (reachable_handlers set cfg consumer opts now kr0 w0 calls s
                idx inf Hf Hn Hw Hr Hl) as Hh.
  rewrite !(step_notify idx inf) by exact Hl.
  unfold notify, OnAdd, OnUpdate. rewrite Hh. now repeat split.
Qed.

(** X5. No watch observes deletions, and an update never inspects its old
    object.  In every state that a receiver built by [newReceiver]
    reaches, a deletion notified by any running informer leaves the state
    as it is, for an object of any kind, and an update to an event is
    handled by [handleEvent] the same for every old object. *)
Theorem deletions_and_old_objects_ignored (set : Settings) (cfg : Config)
    (consumer : Consumer) (opts : list rcvOption) (now : time.Time)
    (kr0 : k8seventsReceiver) (w0 : World) (calls : list Call) (s : State)
    (idx : nat) (inf : Informer) :
  optionsSetRulesOnly ->
  newReceiver set cfg consumer opts now = inl kr0 ->
  informers w0 = [] ->
  run calls (kr0, w0) = Ok tt s ->
  informers (snd s) !! idx = Some inf ->
  forall (obj oldObj : any) (ev : Event),
    step (CallNotify idx (Deleted obj)) s = Ok tt s /\
    step (CallNotify idx (Updated oldObj (AnyEvent ev))) s
    = handleEvent ev s.
Proof.
  intros Hf Hn Hw Hr Hl obj oldObj ev.
  pose proof (reachable_handlers set cfg consumer opts now kr0 w0 calls s
                idx inf Hf Hn Hw Hr Hl) as Hh.
  rewrite !(step_notify idx inf) by exact Hl.
  unfold notify, OnDelete, OnUpdate. rewrite Hh. now split.
Qed.

Lemma forRange_cons {A : Type} (x : A) (l : list A) (body : A -> M unit)
    (s : State) :
  forRange (x :: l) body s
  = match body x s with
    | Ok _ s' => forRange l body s'
    | Panic msg => Panic msg
    end.
Proof. reflexivity. Qed.

Lemma consumedLogs_app (es es' : list Effect) :
  consumedLogs (es ++ es') = consumedLogs es ++ consumedLogs es'.
Proof. apply flat_map_app. Qed.

(** X6. The notifications of events that one watch hands to its handlers,
    added or updated, one after the other, are delivered one batch per
    accepted event, in the order of arrival, whether or not the consumer
    answers with errors; rejected events add nothing, and the receiver,
    the channels, the contexts and the informers stay as they are. *)
Theorem watch_delivers_in_arrival_order (kr : k8seventsReceiver) (w : World)
    (inf : Informer) (ps : list (option any * Event)) :
  Handler inf = watchHandlers ->
  exists w' : World,
    forRange ps
      (fun p =>
         match fst p with
         | None => notify inf (Added (AnyEvent (snd p)))
         | Some oldObj => notify inf (Updated oldObj (AnyEvent (snd p)))
         end)
      (kr, w)
    = Ok tt (kr, w') /\
    consumedLogs (effects w')
    = consumedLogs (effects w)
      ++ map (fun ev => k8sEventToLogData ev (rules kr))
           (List.filter (allowEvent kr) (map snd ps)) /\
    chans w' = chans w /\ cancelled w' = cancelled w /\
    informers w' = informers w.
Proof.
  intros Hh. revert w.
  induction ps as [|[o ev] rest IH]; intros w.
  - exists w. simpl. rewrite app_nil_r. now repeat split.
  - rewrite forRange_cons. cbn [fst snd].
    assert (Hn : match o with
                 | None => notify inf (Added (AnyEvent ev))
                 | Some oldObj => notify inf (Updated oldObj (AnyEvent ev))
                 end (kr, w) = handleEvent ev (kr, w)).
    { destruct o; [now apply notify_updated_event
                  | now apply notify_added_event]. }
    rewrite Hn. simpl map. simpl List.filter.
    destruct (allowEvent kr ev) eqn:Ha.
    + rewrite (handleEvent_accepted kr w ev Ha).
      destruct (IH (withEffects w (deliveryEffects kr (effects w) ev)))
        as (w' & Hr & Hc & H1 & H2 & H3).
      exists w'. split; [exact Hr|]. split; [|now repeat split].
      rewrite Hc. simpl.
      rewrite consumedLogs_app. simpl. now rewrite <- app_assoc.
    + rewrite (handleEvent_rejected kr w ev Ha).
      destruct (IH w) as (w' & Hr & Hc & H1 & H2 & H3).
      exists w'. split; [exact Hr|]. split; [|now repeat split].
      now rewrite Hc.
Qed.

(* ===================================================================== *)
(** ** Further properties of startup and shutdown                         *)
(* ===================================================================== *)

(** The loop of [Start] over two lists of options, one after the other. *)
Lemma Start_options_app (host : Host) (opts opts' : list rcvOption)
    (s : State) :
  Start_options host (opts ++ opts') s
  = match Start_options host opts s with
    | Ok None s1 => Start_options host opts' s1
    | r => r
    end.
Proof.
  revert s. induction opts as [|opt rest IH]; intros s; [reflexivity|].
  simpl. cbv [bind].
  destruct (callOption opt s) as [[e|] s1|]; [reflexivity|apply IH|reflexivity].
Qed.

(** X7. The loop of [Start] over the options stops at the first failure.
    If the options of [pre] all apply, leaving receiver [kr1], and the next
    option [opt] fails on [kr1] with [e], then the loop returns [e] with
    the receiver as [opt] left it, after logging the error and reporting a
    fatal error to the host: none of the options of [post] is applied,
    whatever they are. *)
Theorem Start_options_stops_at_first_failure (host : Host)
    (pre post : list rcvOption) (opt : rcvOption)
    (kr kr1 kr2 : k8seventsReceiver) (w w1 : World) (e : error) :
  Start_options host pre (kr, w) = Ok None (kr1, w1) ->
  runOption opt kr1 = (kr2, Some e) ->
  Start_options host (pre ++ opt :: post) (kr, w)
  = Ok (Some e)
      (kr2, withEffects w1 [ LoggerError "Could not apply option" e;
                             ReportFatalError host e ]).
Proof.
  intros Hpre Ho. rewrite Start_options_app, Hpre.
  simpl. unfold bind at 1. unfold callOption, bind, getKr, putKr, ret.
  cbn [fst snd]. rewrite Ho. cbn [fst snd].
  unfold emit, bind, getWorld, putWorld, withEffects. simpl.
  now rewrite <- app_assoc.
Qed.

Lemma closeChan_open (c : chan) (kr : k8seventsReceiver) (w : World) :
  chans w !! c = Some false ->
  closeChan c (kr, w)
  = Ok tt (kr, mkWorld (<[c := true]> (chans w)) (cancelled w)
                 (informers w) (effects w)).
Proof.
  intros H. unfold closeChan, bind, getWorld. simpl. now rewrite H.
Qed.

Lemma closeAll_fresh (n : nat) (pre : list bool) (kr : k8seventsReceiver)
    (w : World) :
  chans w = pre ++ replicate n false ->
  forRange (seq (length pre) n) closeChan (kr, w)
  = Ok tt (kr, mkWorld (pre ++ replicate n true) (cancelled w)
                 (informers w) (effects w)).
Proof.
  revert pre w. induction n as [|n IH]; intros pre w Hc.
  - simpl in *. rewrite app_nil_r in *. rewrite <- Hc. now destruct w.
  - simpl seq. rewrite forRange_cons, closeChan_open.
    + replace (S (length pre)) with (length (pre ++ [true]))
        by (rewrite length_app; simpl; lia).
      rewrite (IH (pre ++ [true])).
      * simpl. now rewrite <- app_assoc.
      * simpl. rewrite Hc. simpl.
        rewrite (insert_app_r_alt pre) by lia.
        rewrite Nat.sub_diag. simpl. now rewrite <- app_assoc.
    + rewrite Hc. simpl. now apply list_lookup_middle.
Qed.


Lemma Shutdown_fresh (kr : k8seventsReceiver) (w : World) (f : CancelFunc)
    (pre : list bool) (n : nat) :
  cancel kr = Some f ->
  stopperChanList kr = seq (length pre) n ->
  chans w = pre ++ replicate n false ->
  Shutdown (kr, w)
  = Ok None (kr, mkWorld (pre ++ replicate n true)
                   (<[f := true]> (cancelled w)) (informers w) (effects w)).
Proof.
  intros Hc Hl Hch. unfold Shutdown. unfold bind at 1. unfold getKr.
  cbn [fst snd]. rewrite Hc, Hl. unfold bind at 1.
  now rewrite closeAll_fresh by exact Hch.
Qed.

(** A [Start] that succeeds on a receiver without stopper channels,
    followed by one [Shutdown]. *)
Lemma Start_Shutdown_runs (c : Context) (host : Host)
    (kr : k8seventsReceiver) (w : World) (client : Client) :
  optionsSetRulesOnly ->
  stopperChanList kr = [] ->
  snd (applyOptions (createReceiverOpts (config kr) ++ options kr)
         (fst (withContext c kr w))) = None ->
  getK8sClient (config kr) = inl client ->
  exists (kr' : k8seventsReceiver) (w1 w2 : World),
    Start c host (kr, w) = Ok None (kr', w1) /\
    Shutdown (kr', w1) = Ok None (kr', w2) /\
    cancel kr' <> None /\ stopperChanList kr' <> [] /\
    chans w2
    = chans w ++ replicate (length (watchTargets (config kr))) true /\
    cancelled w2 = cancelled w ++ [true] /\
    informers w2 = informers w1 /\ effects w2 = effects w1.
Proof.
  intros Hf Hl Ho Hc.
  pose proof (Start_runs c host kr w) as Hs. cbv zeta in Hs.
  pose proof (applyOptions_frame
                (createReceiverOpts (config kr) ++ options kr)
                (fst (withContext c kr w)) Hf) as Hfr.
  destruct (applyOptions _ (fst (withContext c kr w))) as [kr2 o].
  simpl in Ho, Hfr. subst o.
  apply set_rules_frame in Hfr.
  destruct Hfr as (Hcfg & _ & Hst & _ & Hcan).
  simpl in Hcfg, Hst, Hcan. rewrite Hl in Hst.
  rewrite Hcfg, Hc in Hs. unfold afterWatches in Hs. cbn [fst snd] in Hs.
  rewrite Hst in Hs. simpl app in Hs.
  do 3 eexists. split; [exact Hs|].
  split.
  - apply (Shutdown_fresh _ _ (length (cancelled w)) (chans w)
             (length (watchTargets (config kr))));
      [exact Hcan | reflexivity | reflexivity].
  - simpl. rewrite Hcan. split; [discriminate|]. split.
    + unfold watchTargets. now destruct (Namespaces (config kr)).
    + split; [reflexivity|]. split; [|now split].
      rewrite insert_app_r_alt by lia. now rewrite Nat.sub_diag.
Qed.

(** X8. On a receiver without stopper channels, a [Start] that succeeds
    followed by [Shutdown] returns no error: every stopper channel that
    [Start] made is closed, the lifetime context is cancelled, and the
    informers and the trace are left as [Start] left them. *)
Theorem Start_then_Shutdown (c : Context) (host : Host)
    (kr : k8seventsReceiver) (w : World) (client : Client) :
  optionsSetRulesOnly ->
  stopperChanList kr = [] ->
  snd (applyOptions (createReceiverOpts (config kr) ++ options kr)
         (fst (withContext c kr w))) = None ->
  getK8sClient (config kr) = inl client ->
  exists (kr' : k8seventsReceiver) (w1 w2 : World),
    Start c host (kr, w) = Ok None (kr', w1) /\
    Shutdown (kr', w1) = Ok None (kr', w2) /\
    chans w2
    = chans w ++ replicate (length (watchTargets (config kr))) true /\
    cancelled w2 = cancelled w ++ [true] /\
    informers w2 = informers w1 /\ effects w2 = effects w1.
Proof.
  intros Hf Hl Ho Hc.
  destruct (Start_Shutdown_runs c host kr w client Hf Hl Ho Hc)
    as (kr' & w1 & w2 & H1 & H2 & _ & _ & H3).
  now exists kr', w1, w2.
Qed.

(** X9. Whatever the configuration, a [Start] that succeeds leaves at
    least one stopper channel, so after it the second [Shutdown] always
    panics on closing a closed channel. *)
Theorem Shutdown_twice_panics_after_any_Start (c : Context) (host : Host)
    (kr : k8seventsReceiver) (w : World) (client : Client) :
  optionsSetRulesOnly ->
  stopperChanList kr = [] ->
  snd (applyOptions (createReceiverOpts (config kr) ++ options kr)
         (fst (withContext c kr w))) = None ->
  getK8sClient (config kr) = inl client ->
  exists (s1 s2 : State),
    Start c host (kr, w) = Ok None s1 /\
    stopperChanList (fst s1) <> [] /\
    Shutdown s1 = Ok None s2 /\
    Shutdown s2 = Panic "close of closed channel".
Proof.
  intros Hf Hl Ho Hc.
  destruct (Start_Shutdown_runs c host kr w client Hf Hl Ho Hc)
    as (kr' & w1 & w2 & H1 & H2 & Hcan & Hne & _).
  exists (kr', w1), (kr', w2). repeat split; try assumption.
  exact (Shutdown_again_panics kr' w1 None (kr', w2) Hcan Hne H2).
Qed.

(** X10. After a [Start] that failed on a receiver without stopper
    channels, [Shutdown] returns no error, cancels the lifetime context
    and touches no channel and no informer; repeating it changes nothing
    more. *)
Theorem failed_Start_then_Shutdown (c : Context) (host : Host)
    (kr : k8seventsReceiver) (w : World) (e : error) :
  optionsSetRulesOnly ->
  stopperChanList kr = [] ->
  let r := applyOptions (createReceiverOpts (config kr) ++ options kr)
             (fst (withContext c kr w)) in
  snd r = Some e \/ (snd r = None /\ getK8sClient (config kr) = inr e) ->
  exists (kr' : k8seventsReceiver) (w1 w2 : World),
    Start c host (kr, w) = Ok (Some e) (kr', w1) /\
    Shutdown (kr', w1) = Ok None (kr', w2) /\
    Shutdown (kr', w2) = Ok None (kr', w2) /\
    cancelled w2 = cancelled w ++ [true] /\
    chans w2 = chans w /\ informers w2 = informers w.
Proof.
  intros Hf Hl r Hr.
  pose proof (Start_runs c host kr w) as Hs. cbv zeta in Hs.
  pose proof (applyOptions_frame
                (createReceiverOpts (config kr) ++ options kr)
                (fst (withContext c kr w)) Hf) as Hfr.
  fold r in Hs, Hfr. destruct r as [kr2 o]. simpl in Hr, Hfr.
  apply set_rules_frame in Hfr.
  destruct Hfr as (Hcfg & _ & Hst & _ & Hcan).
  simpl in Hcfg, Hst, Hcan. rewrite Hl in Hst.
  assert (Hsh : forall w1 : World,
            Shutdown (kr2, w1)
            = Ok None (kr2, mkWorld (chans w1)
                              (<[length (cancelled w) := true]> (cancelled w1))
                              (informers w1) (effects w1))).
  { intros w1. unfold Shutdown, bind at 1, getKr. cbn [fst snd].
    rewrite Hcan, Hst. reflexivity. }
  destruct Hr as [-> | [-> Hc]]; [|rewrite Hcfg, Hc in Hs];
    do 3 eexists; (split; [exact Hs|]); (split; [apply Hsh|]);
    (split; [rewrite Hsh; simpl; now rewrite list_insert_insert_eq|]);
    simpl; rewrite insert_app_r_alt by lia; rewrite Nat.sub_diag;
    now repeat split.
Qed.


(** X12. What [Start] reports.  When an option fails, it logs the error
    and reports a fatal error to the host, in that order and nothing else;
    when the client cannot be obtained, it logs and reports nothing; when
    it succeeds, it logs one line. *)
Theorem Start_reports (c : Context) (host : Host) (kr : k8seventsReceiver)
    (w : World) :
  optionsSetRulesOnly ->
  let r := applyOptions (createReceiverOpts (config kr) ++ options kr)
             (fst (withContext c kr w)) in
  exists (res : option error) (kr' : k8seventsReceiver) (w' : World),
    Start c host (kr, w) = Ok res (kr', w') /\
    (forall e : error, snd r = Some e ->
       res = Some e /\
       effects w' = effects w ++ [ LoggerError "Could not apply option" e;
                                   ReportFatalError host e ]) /\
    (forall e : error, snd r = None ->
       getK8sClient (config kr) = inr e ->
       res = Some e /\ effects w' = effects w) /\
    (forall client : Client, snd r = None ->
       getK8sClient (config kr) = inl client ->
       res = None /\
       effects w'
       = effects w
         ++ [LoggerInfo "starting to watch namespaces for the events."]).
Proof.
  intros Hf r.
  pose proof (Start_runs c host kr w) as Hs. cbv zeta in Hs.
  pose proof (applyOptions_frame
                (createReceiverOpts (config kr) ++ options kr)
                (fst (withContext c kr w)) Hf) as Hfr.
  fold r in Hs, Hfr. destruct r as [kr2 o]. simpl in Hfr.
  apply set_rules_frame in Hfr. destruct Hfr as (Hcfg & _).
  simpl in Hcfg. rewrite Hcfg in Hs.
  destruct o as [e|]; [|destruct (getK8sClient (config kr)) as [cl|e]];
    do 3 eexists; (split; [exact Hs|]); simpl;
    repeat split; intros; congruence.
Qed.

(** X13. [newReceiver] fails exactly when the observability report cannot
    be built, with that error and without a receiver.  Otherwise it
    returns a receiver that keeps the report and the clock reading, and on
    which [Shutdown], before any [Start], returns the nil error and leaves
    the receiver and the world as they are, so that it may be called any
    number of times. *)
Theorem newReceiver_then_Shutdown (set : Settings) (cfg : Config)
    (consumer : Consumer) (opts : list rcvOption) (now : time.Time) :
  match NewObsReport (mkObsReportSettings (ID set) "http" set) with
  | inr e => newReceiver set cfg consumer opts now = inr e
  | inl obs =>
      exists kr0 : k8seventsReceiver,
        newReceiver set cfg consumer opts now = inl kr0 /\
        obsrecv kr0 = Some obs /\ startTime kr0 = now /\
        (forall w : World, Shutdown (kr0, w) = Ok None (kr0, w)) /\
        (forall w : World,
           (Shutdown ;;; Shutdown ;;; Shutdown) (kr0, w)
           = Ok None (kr0, w)) /\
        forall (w : World) (n : nat),
          run (replicate n CallShutdown) (kr0, w) = Ok tt (kr0, w)
  end.
Proof.
  unfold newReceiver.
  destruct (NewObsReport _) as [obs|e]; [|reflexivity].
  eexists. split; [reflexivity|]. split; [reflexivity|].
  split; [reflexivity|]. split; [reflexivity|]. split; [reflexivity|].
  intros w n. induction n as [|n IH]; [reflexivity|].
  simpl replicate. rewrite run_cons. unfold step, bind at 1.
  rewrite Shutdown_never_started by reflexivity. exact IH.
Qed.

End Receiver.

(* ===================================================================== *)
(** ** The theorems at concrete inputs                                    *)
(* ===================================================================== *)

Lemma Sample_optionsSetRulesOnly : optionsSetRulesOnly Sample.runOption.
Proof. intros [[|n]] kr; reflexivity. Qed.

(** The comparison with [time.Time{}] is one of structs: an EventTime at
    the zero instant that carries a location is a populated field. *)
Example getEventTimestamp_zero_instant_with_location :
  getEventTimestamp
    (Sample.event (time.mkTime 0 0 (Some time.Local)) Sample.T0 time.zero)
  = time.mkTime 0 0 (Some time.Local).
Proof. reflexivity. Qed.

Example getEventTimestamp_eventTime_first :
  getEventTimestamp
    (Sample.event (Sample.at_ 63800000000 7) Sample.T0 (Sample.at_ 1 1))
  = Sample.at_ 63800000000 7.
Proof. reflexivity. Qed.

Example getEventTimestamp_firstTimestamp_last :
  getEventTimestamp (Sample.event time.zero time.zero (Sample.at_ 1 1))
  = Sample.at_ 1 1.
Proof. reflexivity. Qed.

Example Before_monotonic_readings :
  time.Before (Sample.now_ 4400000000 10 900) (Sample.now_ 4400000000 5 901)
  = true.
Proof. reflexivity. Qed.

Lemma getEventTimestamp_priority_witness :
  getEventTimestamp (Sample.event time.zero Sample.T0 time.zero) = Sample.T0
  /\ getEventTimestamp (Sample.event time.zero time.zero time.zero)
     = time.zero.
Proof.
  split.
  - apply (proj1 (proj2 (getEventTimestamp_priority
                           (Sample.event time.zero Sample.T0 time.zero)))).
    + reflexivity.
    + discriminate.
  - apply (proj1 (proj2 (proj2 (proj2
             (getEventTimestamp_priority
                (Sample.event time.zero time.zero time.zero))))));
      reflexivity.
Defined.

Lemma allowEvent_iff_not_earlier_witness :
  allowEvent (Sample.receiverAt Sample.cfgAll [] Sample.T0)
    (Sample.event Sample.T0 time.zero time.zero) = true /\
  allowEvent (Sample.receiverAt Sample.cfgAll [] Sample.T0)
    (Sample.event (Sample.at_ 63800000000 499) time.zero time.zero) = false.
Proof.
  split.
  - apply (proj1 (proj2 (allowEvent_iff_not_earlier
                           (Sample.receiverAt Sample.cfgAll [] Sample.T0)
                           (Sample.event Sample.T0 time.zero time.zero)))).
    reflexivity.
  - refine (proj2 (proj1 (proj2 (proj2
              (allowEvent_iff_not_earlier
                 (Sample.receiverAt Sample.cfgAll [] Sample.T0)
                 (Sample.event (Sample.at_ 63800000000 499) time.zero
                    time.zero)))) _ _ _) 1 _ _).
    + reflexivity.
    + reflexivity.
    + reflexivity.
    + lia.
    + reflexivity.
Defined.

Lemma allowEvent_rejects_absent_timestamps_witness :
  allowEvent (Sample.receiverAt Sample.cfgAll [] Sample.T0)
    (Sample.event time.zero time.zero time.zero) = false /\
  allowEvent
    (Sample.receiverAt Sample.cfgAll [] (Sample.now_ 4400000000 10 900))
    (Sample.event time.zero time.zero time.zero) = false.
Proof.
  split.
  - exact (proj2 (allowEvent_rejects_absent_timestamps
                    Sample.NewObsReport (mkSettings "k8s_events")
                    Sample.cfgAll (mkConsumer 0) [] Sample.T0
                    (Sample.receiverAt Sample.cfgAll [] Sample.T0)
                    (Sample.event time.zero time.zero time.zero)
                    eq_refl eq_refl eq_refl eq_refl eq_refl)).
  - exact (proj2 (allowEvent_rejects_absent_timestamps
                    Sample.NewObsReport (mkSettings "k8s_events")
                    Sample.cfgAll (mkConsumer 0) []
                    (Sample.now_ 4400000000 10 900)
                    (Sample.receiverAt Sample.cfgAll []
                       (Sample.now_ 4400000000 10 900))
                    (Sample.event time.zero time.zero time.zero)
                    eq_refl eq_refl eq_refl eq_refl eq_refl)).
Defined.

(** C4. [Shutdown] before [Start] returns no error and changes nothing.
    After a [Start] that started a watch, the first [Shutdown] returns no
    error and closes the stopper channel; the second closes that channel
    again and panics. *)
Theorem Shutdown_twice_after_Start_panics :
  exists (kr0 : k8seventsReceiver) (s1 s2 : State),
    newReceiver Sample.NewObsReport (mkSettings "k8s_events") Sample.cfgAll
      (mkConsumer 0) [] Sample.T0 = inl kr0 /\
    Shutdown (kr0, Sample.emptyWorld) = Ok None (kr0, Sample.emptyWorld) /\
    Start Sample.createReceiverOpts Sample.runOption Sample.getK8sClient
      Background (mkHost 0) (kr0, Sample.emptyWorld) = Ok None s1 /\
    Shutdown s1 = Ok None s2 /\
    chans (snd s2) = [true] /\
    Shutdown s2 = Panic "close of closed channel".
Proof.
  do 3 eexists.
  split; [reflexivity|]. split; [reflexivity|].
  split; [vm_compute; reflexivity|].
  split; [vm_compute; reflexivity|].
  split; reflexivity.
Qed.

Lemma Start_one_watch_per_namespace_witness :
  (exists (kr' : k8seventsReceiver) (w' : World),
     Start Sample.createReceiverOpts Sample.runOption Sample.getK8sClient
       Background (mkHost 0)
       (Sample.receiverAt Sample.cfgTwo [] Sample.T0, Sample.emptyWorld)
     = Ok None (kr', w') /\
     map infNamespace (informers w') = ["a"%string; "b"%string] /\
     stopperChanList kr' = [0%nat; 1%nat]) /\
  (exists (kr' : k8seventsReceiver) (w' : World),
     Start Sample.createReceiverOpts Sample.runOption Sample.getK8sClient
       Background (mkHost 0)
       (Sample.receiverAt Sample.cfgAll [] Sample.T0, Sample.emptyWorld)
     = Ok None (kr', w') /\
     map infNamespace (informers w') = [NamespaceAll] /\
     stopperChanList kr' = [0%nat]).
Proof.
  split.
  - destruct (Start_one_watch_per_namespace
                Sample.createReceiverOpts Sample.runOption
                Sample.getK8sClient Background (mkHost 0)
                (Sample.receiverAt Sample.cfgTwo [] Sample.T0)
                Sample.emptyWorld (mkClient 0)
                Sample_optionsSetRulesOnly eq_refl eq_refl)
      as (kr' & w' & Hs & Hi & Hl & _).
    exists kr', w'. split; [exact Hs|]. rewrite Hi, Hl. split; reflexivity.
  - destruct (Start_one_watch_per_namespace
                Sample.createReceiverOpts Sample.runOption
                Sample.getK8sClient Background (mkHost 0)
                (Sample.receiverAt Sample.cfgAll [] Sample.T0)
                Sample.emptyWorld (mkClient 0)
                Sample_optionsSetRulesOnly eq_refl eq_refl)
      as (kr' & w' & Hs & Hi & Hl & _).
    exists kr', w'. split; [exact Hs|]. rewrite Hi, Hl. split; reflexivity.
Defined.

Lemma Start_failure_starts_no_watch_witness :
  (exists (kr' : k8seventsReceiver) (w' : World),
     Start Sample.createReceiverOpts Sample.runOption Sample.getK8sClient
       Background (mkHost 0)
       (Sample.receiverAt Sample.cfgTwo [mkOption 1] Sample.T0,
        Sample.emptyWorld)
     = Ok (Some "unknown option"%string) (kr', w') /\
     informers w' = [] /\ stopperChanList kr' = []) /\
  (exists (kr' : k8seventsReceiver) (w' : World),
     Start Sample.createReceiverOpts Sample.runOption Sample.getK8sClient
       Background (mkHost 0)
       (Sample.receiverAt Sample.cfgNoClient [] Sample.T0, Sample.emptyWorld)
     = Ok (Some "invalid authType"%string) (kr', w') /\
     informers w' = [] /\ stopperChanList kr' = []).
Proof.
  split.
  - destruct (Start_failure_starts_no_watch
                Sample.createReceiverOpts Sample.runOption
                Sample.getK8sClient Sample.k8sEventToLogData
                Sample.ConsumeLogs Sample.metadataType
                Background (mkHost 0)
                (Sample.receiverAt Sample.cfgTwo [mkOption 1] Sample.T0)
                Sample.emptyWorld "unknown option"%string
                Sample_optionsSetRulesOnly (or_introl eq_refl))
      as (kr' & w' & Hs & Hi & _ & Hl & _).
    exists kr', w'. split; [exact Hs|]. rewrite Hi, Hl. split; reflexivity.
  - destruct (Start_failure_starts_no_watch
                Sample.createReceiverOpts Sample.runOption
                Sample.getK8sClient Sample.k8sEventToLogData
                Sample.ConsumeLogs Sample.metadataType
                Background (mkHost 0)
                (Sample.receiverAt Sample.cfgNoClient [] Sample.T0)
                Sample.emptyWorld "invalid authType"%string
                Sample_optionsSetRulesOnly
                (or_intror (conj eq_refl eq_refl)))
      as (kr' & w' & Hs & Hi & _ & Hl & _).
    exists kr', w'. split; [exact Hs|]. rewrite Hi, Hl. split; reflexivity.
Defined.

Lemma flood_filter_uses_construction_time_witness :
  exists s : State,
    run Sample.createReceiverOpts Sample.runOption Sample.getK8sClient
      Sample.k8sEventToLogData Sample.ConsumeLogs Sample.metadataType
      [ CallStart Background (mkHost 0);
        CallNotify 1
          (Added (AnyEvent
                    (Sample.event (Sample.at_ 63800000000 499) time.zero
                       time.zero)));
        CallNotify 0
          (Updated AnyNilEvent
             (AnyEvent (Sample.event Sample.T0 time.zero time.zero)));
        CallShutdown ]
      (Sample.receiverAt Sample.cfgTwo [] Sample.T0, Sample.emptyWorld)
    = Ok tt s /\
    startTime (fst s) = Sample.T0 /\
    length (effects (snd s)) = 4%nat.
Proof.
  eexists. split; [vm_compute; reflexivity|]. split; [|reflexivity].
  match goal with
  | |- startTime (fst ?s) = _ =>
      refine (proj1 (flood_filter_uses_construction_time
                       Sample.NewObsReport Sample.createReceiverOpts
                       Sample.runOption Sample.getK8sClient
                       Sample.k8sEventToLogData Sample.ConsumeLogs
                       Sample.metadataType
                       (mkSettings "k8s_events") Sample.cfgTwo (mkConsumer 0)
                       [] Sample.T0
                       (Sample.receiverAt Sample.cfgTwo [] Sample.T0)
                       Sample.emptyWorld
                       [ CallStart Background (mkHost 0);
                         CallNotify 1
                           (Added (AnyEvent
                                     (Sample.event
                                        (Sample.at_ 63800000000 499)
                                        time.zero time.zero)));
                         CallNotify 0
                           (Updated AnyNilEvent
                              (AnyEvent
                                 (Sample.event Sample.T0 time.zero
                                    time.zero)));
                         CallShutdown ]
                       s Sample_optionsSetRulesOnly eq_refl eq_refl _))
  end.
  vm_compute. reflexivity.
Defined.

Lemma handleEvent_consumer_error_witness :
  handleEvent Sample.k8sEventToLogData Sample.ConsumeLogs_failing
    Sample.metadataType (Sample.event Sample.T0 time.zero time.zero)
    (Sample.receiverAt Sample.cfgAll [] Sample.T0, Sample.emptyWorld)
  = Ok tt
      (Sample.receiverAt Sample.cfgAll [] Sample.T0,
       mkWorld [] [] []
         [ StartLogsOp (obsrecv (Sample.receiverAt Sample.cfgAll [] Sample.T0))
             nilCtx;
           ConsumeLogsCall (mkConsumer 0) (logsOpCtx nilCtx)
             [mkLogRecord Sample.T0 "Successfully assigned" []];
           EndLogsOp (obsrecv (Sample.receiverAt Sample.cfgAll [] Sample.T0))
             (logsOpCtx nilCtx) "k8s_events" 1
             (Some "backend down"%string) ]).
Proof.
  exact (proj1 (handleEvent_consumer_error
                  Sample.createReceiverOpts Sample.runOption
                  Sample.getK8sClient Sample.k8sEventToLogData
                  Sample.ConsumeLogs_failing Sample.metadataType
                  (Sample.receiverAt Sample.cfgAll [] Sample.T0)
                  Sample.emptyWorld
                  (Sample.event Sample.T0 time.zero time.zero)
                  "backend down"%string eq_refl eq_refl)).
Defined.


(* ===================================================================== *)
(** ** The further properties at concrete inputs                          *)
(* ===================================================================== *)

Lemma allowEvent_eventTime_decides_witness :
  allowEvent (Sample.receiverAt Sample.cfgAll [] Sample.T0)
    (Sample.event (Sample.at_ 63800000000 499) (Sample.at_ 63800000001 0)
       time.zero)
  = negb (time.Before (Sample.at_ 63800000000 499) Sample.T0).
Proof.
  refine (proj1 (allowEvent_eventTime_decides
                   (Sample.receiverAt Sample.cfgAll [] Sample.T0)
                   (Sample.event (Sample.at_ 63800000000 499)
                      (Sample.at_ 63800000001 0) time.zero)
                   (Sample.event (Sample.at_ 63800000000 499)
                      (Sample.at_ 63800000001 0) time.zero) _)).
  discriminate.
Defined.

Lemma allowEvent_monotone_witness :
  allowEvent (Sample.receiverAt Sample.cfgAll [] Sample.T0)
    (Sample.event time.zero (Sample.at_ 63800000001 0) time.zero) = true.
Proof.
  apply (allowEvent_monotone
           (Sample.receiverAt Sample.cfgAll [] Sample.T0)
           (Sample.event Sample.T0 time.zero time.zero)
           (Sample.event time.zero (Sample.at_ 63800000001 0) time.zero));
    reflexivity.
Defined.

Lemma notification_of_foreign_object_panics_witness :
  exists s : State,
    run Sample.createReceiverOpts Sample.runOption Sample.getK8sClient
      Sample.k8sEventToLogData Sample.ConsumeLogs Sample.metadataType
      [CallStart Background (mkHost 0)]
      (Sample.receiverAt Sample.cfgAll [] Sample.T0, Sample.emptyWorld)
    = Ok tt s /\
    step Sample.createReceiverOpts Sample.runOption Sample.getK8sClient
      Sample.k8sEventToLogData Sample.ConsumeLogs Sample.metadataType
      (CallNotify 0 (Added (AnyOther "*v1.Pod"))) s
    = Panic "interface conversion: interface {} is not *v1.Event".
Proof.
  eexists. split; [vm_compute; reflexivity|].
  match goal with
  | |- _ ?s = _ =>
      refine (proj1 (notification_of_foreign_object_panics
                       Sample.NewObsReport Sample.createReceiverOpts
                       Sample.runOption Sample.getK8sClient
                       Sample.k8sEventToLogData Sample.ConsumeLogs
                       Sample.metadataType
                       (mkSettings "k8s_events") Sample.cfgAll (mkConsumer 0)
                       [] Sample.T0
                       (Sample.receiverAt Sample.cfgAll [] Sample.T0)
                       Sample.emptyWorld [CallStart Background (mkHost 0)]
                       s 0%nat (watchOf (mkClient 0) NamespaceAll 0%nat)
                       Sample_optionsSetRulesOnly eq_refl eq_refl _ _
                       AnyNilEvent "*v1.Pod"%string))
  end.
  - vm_compute. reflexivity.
  - reflexivity.
Defined.

Lemma deletions_and_old_objects_ignored_witness :
  exists s : State,
    run Sample.createReceiverOpts Sample.runOption Sample.getK8sClient
      Sample.k8sEventToLogData Sample.ConsumeLogs Sample.metadataType
      [CallStart Background (mkHost 0)]
      (Sample.receiverAt Sample.cfgAll [] Sample.T0, Sample.emptyWorld)
    = Ok tt s /\
    step Sample.createReceiverOpts Sample.runOption Sample.getK8sClient
      Sample.k8sEventToLogData Sample.ConsumeLogs Sample.metadataType
      (CallNotify 0 (Deleted (AnyOther "*v1.Pod"))) s
    = Ok tt s.
Proof.
  eexists. split; [vm_compute; reflexivity|].
  match goal with
  | |- _ ?s = _ =>
      refine (proj1 (deletions_and_old_objects_ignored
                       Sample.NewObsReport Sample.createReceiverOpts
                       Sample.runOption Sample.getK8sClient
                       Sample.k8sEventToLogData Sample.ConsumeLogs
                       Sample.metadataType
                       (mkSettings "k8s_events") Sample.cfgAll (mkConsumer 0)
                       [] Sample.T0
                       (Sample.receiverAt Sample.cfgAll [] Sample.T0)
                       Sample.emptyWorld [CallStart Background (mkHost 0)]
                       s 0%nat (watchOf (mkClient 0) NamespaceAll 0%nat)
                       Sample_optionsSetRulesOnly eq_refl eq_refl _ _
                       (AnyOther "*v1.Pod") AnyNilEvent
                       (Sample.event Sample.T0 time.zero time.zero)))
  end.
  - vm_compute. reflexivity.
  - reflexivity.
Defined.

Lemma watch_delivers_in_arrival_order_witness :
  exists w' : World,
    forRange
      [ (None,
         Sample.event (Sample.at_ 63800000000 499) time.zero time.zero);
        (Some AnyNilEvent, Sample.event Sample.T0 time.zero time.zero);
        (None,
         Sample.event time.zero (Sample.at_ 63800000001 0) time.zero) ]
      (fun p =>
         match fst p with
         | None =>
             notify Sample.k8sEventToLogData Sample.ConsumeLogs_failing
               Sample.metadataType (watchOf (mkClient 0) NamespaceAll 0%nat)
               (Added (AnyEvent (snd p)))
         | Some oldObj =>
             notify Sample.k8sEventToLogData Sample.ConsumeLogs_failing
               Sample.metadataType (watchOf (mkClient 0) NamespaceAll 0%nat)
               (Updated oldObj (AnyEvent (snd p)))
         end)
      (Sample.receiverAt Sample.cfgAll [] Sample.T0,
       mkWorld [false] [false] [watchOf (mkClient 0) NamespaceAll 0%nat] [])
    = Ok tt (Sample.receiverAt Sample.cfgAll [] Sample.T0, w') /\
    consumedLogs (effects w')
    = [ [mkLogRecord Sample.T0 "Successfully assigned" []];
        [mkLogRecord (Sample.at_ 63800000001 0) "Successfully assigned" []] ].
Proof.
  destruct (watch_delivers_in_arrival_order
              Sample.k8sEventToLogData Sample.ConsumeLogs_failing
              Sample.metadataType
              (Sample.receiverAt Sample.cfgAll [] Sample.T0)
              (mkWorld [false] [false]
                 [watchOf (mkClient 0) NamespaceAll 0%nat] [])
              (watchOf (mkClient 0) NamespaceAll 0%nat)
              [ (None,
                 Sample.event (Sample.at_ 63800000000 499) time.zero
                   time.zero);
                (Some AnyNilEvent,
                 Sample.event Sample.T0 time.zero time.zero);
                (None,
                 Sample.event time.zero (Sample.at_ 63800000001 0)
                   time.zero) ]
              eq_refl)
    as (w' & Hr & Hc & _).
  exists w'. split; [exact Hr|]. rewrite Hc. reflexivity.
Defined.

Lemma Start_then_Shutdown_witness :
  exists (kr' : k8seventsReceiver) (w1 w2 : World),
    Start Sample.createReceiverOpts Sample.runOption Sample.getK8sClient
      Background (mkHost 0)
      (Sample.receiverAt Sample.cfgTwo [] Sample.T0, Sample.emptyWorld)
    = Ok None (kr', w1) /\
    Shutdown (kr', w1) = Ok None (kr', w2) /\
    chans w2 = [true; true] /\ cancelled w2 = [true].
Proof.
  destruct (Start_then_Shutdown
              Sample.createReceiverOpts Sample.runOption
              Sample.getK8sClient Background (mkHost 0)
              (Sample.receiverAt Sample.cfgTwo [] Sample.T0)
              Sample.emptyWorld (mkClient 0)
              Sample_optionsSetRulesOnly eq_refl eq_refl eq_refl)
    as (kr' & w1 & w2 & H1 & H2 & H3 & H4 & _).
  exists kr', w1, w2. now repeat split.
Defined.

Lemma Shutdown_twice_panics_after_any_Start_witness :
  exists (s1 s2 : State),
    Start Sample.createReceiverOpts Sample.runOption Sample.getK8sClient
      Background (mkHost 0)
      (Sample.receiverAt Sample.cfgTwo [] Sample.T0, Sample.emptyWorld)
    = Ok None s1 /\
    Shutdown s1 = Ok None s2 /\
    Shutdown s2 = Panic "close of closed channel".
Proof.
  destruct (Shutdown_twice_panics_after_any_Start
              Sample.createReceiverOpts Sample.runOption
              Sample.getK8sClient Background (mkHost 0)
              (Sample.receiverAt Sample.cfgTwo [] Sample.T0)
              Sample.emptyWorld (mkClient 0)
              Sample_optionsSetRulesOnly eq_refl eq_refl eq_refl)
    as (s1 & s2 & H1 & _ & H2 & H3).
  exists s1, s2. now repeat split.
Defined.

Lemma failed_Start_then_Shutdown_witness :
  exists (kr' : k8seventsReceiver) (w1 w2 : World),
    Start Sample.createReceiverOpts Sample.runOption Sample.getK8sClient
      Background (mkHost 0)
      (Sample.receiverAt Sample.cfgNoClient [] Sample.T0, Sample.emptyWorld)
    = Ok (Some "invalid authType"%string) (kr', w1) /\
    Shutdown (kr', w1) = Ok None (kr', w2) /\
    Shutdown (kr', w2) = Ok None (kr', w2) /\
    cancelled w2 = [true] /\ chans w2 = [].
Proof.
  destruct (failed_Start_then_Shutdown
              Sample.createReceiverOpts Sample.runOption
              Sample.getK8sClient Background (mkHost 0)
              (Sample.receiverAt Sample.cfgNoClient [] Sample.T0)
              Sample.emptyWorld "invalid authType"%string
              Sample_optionsSetRulesOnly eq_refl
              (or_intror (conj eq_refl eq_refl)))
    as (kr' & w1 & w2 & H1 & H2 & H3 & H4 & H5 & _).
  exists kr', w1, w2. now repeat split.
Defined.


Lemma Start_reports_witness :
  exists (kr' : k8seventsReceiver) (w' : World),
    Start Sample.createReceiverOpts Sample.runOption Sample.getK8sClient
      Background (mkHost 7)
      (Sample.receiverAt Sample.cfgTwo [mkOption 1] Sample.T0,
       Sample.emptyWorld)
    = Ok (Some "unknown option"%string) (kr', w') /\
    effects w'
    = [ LoggerError "Could not apply option" "unknown option"%string;
        ReportFatalError (mkHost 7) "unknown option"%string ].
Proof.
  destruct (Start_reports
              Sample.createReceiverOpts Sample.runOption
              Sample.getK8sClient Background (mkHost 7)
              (Sample.receiverAt Sample.cfgTwo [mkOption 1] Sample.T0)
              Sample.emptyWorld Sample_optionsSetRulesOnly)
    as (res & kr' & w' & H1 & H2 & _).
  destruct (H2 "unknown option"%string eq_refl) as [-> He].
  exists kr', w'. split; [exact H1 | exact He].
Defined.

Lemma Start_options_stops_at_first_failure_witness :
  Start_options Sample.runOption (mkHost 7)
    ([mkOption 0] ++ mkOption 1 :: [mkOption 0; mkOption 2])
    (Sample.receiverAt Sample.cfgAll [] Sample.T0, Sample.emptyWorld)
  = Ok (Some "unknown option"%string)
      (set_rules (Sample.receiverAt Sample.cfgAll [] Sample.T0)
         [mkRule "involvedObject.kind" "k8s.object.kind"],
       mkWorld [] [] []
         [ LoggerError "Could not apply option" "unknown option"%string;
           ReportFatalError (mkHost 7) "unknown option"%string ]).
Proof.
  exact (Start_options_stops_at_first_failure
           Sample.runOption (mkHost 7) [mkOption 0]
           [mkOption 0; mkOption 2] (mkOption 1)
           (Sample.receiverAt Sample.cfgAll [] Sample.T0)
           (set_rules (Sample.receiverAt Sample.cfgAll [] Sample.T0)
              [mkRule "involvedObject.kind" "k8s.object.kind"])
           (set_rules (Sample.receiverAt Sample.cfgAll [] Sample.T0)
              [mkRule "involvedObject.kind" "k8s.object.kind"])
           Sample.emptyWorld Sample.emptyWorld "unknown option"%string
           eq_refl eq_refl).
Defined.
